(** * Arcana data stores: path mapping, connection handling, field and
      metadata persistence

    A shallow embedding of the store layer of the arcana repository:

    - [Py]            the fragments of Python's built-ins and [posixpath]
                      that the stores rely on;
    - [FileSystemDir] [arcana2/data/repository/file_system_dir.py];
    - [DataStore]     [arcana/core/data/store.py];
    - [XnatViaCS]     [arcana/data/stores/medimage/xnat/cs.py];
    - [Bids]          [arcana2/data/sets/bids.py];
    - [CacheManager]  the cache-validating retrieval the store contract
                      documents.

    Python exceptions are values of [exn]; a call either returns or raises,
    which is the [result] type.  Code that touches the file system threads
    an explicit world through every call. *)

From Stdlib Require Import ZArith String Ascii List Lia Bool.
From stdpp Require Import base option gmap strings list.

Local Open Scope Z_scope.

(** ** Exceptions and results *)

Inductive exn : Type :=
| ArcanaInsufficientRepoDepthError
| ArcanaMissingDataException
| ArcanaNameError (name : string)
| ArcanaEmptyDatasetError
| ArcanaError
| ArcanaCacheError
| AssertionError
| AttributeError
| TypeError
| KeyError (key : string)
| ArcanaNoDirectXnatMountException
| ValueError
| IOError (errno : Z).

Inductive result (A : Type) : Type :=
| Ok (a : A)
| Raise (e : exn).

Arguments Ok {A} a.
Arguments Raise {A} e.


Definition result_bind {A B} (r : result A) (k : A → result B) : result B :=
  match r with
  | Ok a => k a
  | Raise e => Raise e
  end.

#[global] Instance result_ret : MRet result := @Ok.
#[global] Instance result_mbind : MBind result :=
  fun A B k r => result_bind r k.

(** [errno.ENOENT] *)
Definition ENOENT : Z := 2.

(** Code that reads or changes a world of type [W] and may raise. *)
Definition ST (W A : Type) : Type := W → result A * W.

Definition st_ret {W A} (a : A) : ST W A := fun w => (Ok a, w).
Definition st_raise {W A} (e : exn) : ST W A := fun w => (Raise e, w).
Definition st_lift {W A} (r : result A) : ST W A := fun w => (r, w).
Definition st_bind {W A B} (m : ST W A) (k : A → ST W B) : ST W B :=
  fun w =>
    match m w with
    | (Ok a, w') => k a w'
    | (Raise e, w') => (Raise e, w')
    end.

#[global] Instance ST_ret W : MRet (ST W) := @st_ret W.
#[global] Instance ST_mbind W : MBind (ST W) := fun A B k m => st_bind m k.

(** ** Python built-ins *)

Module Py.

(** [s.startswith(p)] *)
Definition startswith (s p : string) : bool := String.prefix p s.

(** [s.endswith(p)]: some suffix of [s] is [p]. *)
Fixpoint endswith (s p : string) : bool :=
  String.eqb s p ||
  match s with
  | EmptyString => false
  | String _ r => endswith r p
  end.

(** Truthiness of a string and of a list. *)
Definition truthy_str (s : string) : bool := negb (String.eqb s "").

Definition truthy_opt_str (o : option string) : bool :=
  match o with
  | Some s => truthy_str s
  | None => false
  end.

Definition truthy_list {A} (l : list A) : bool :=
  match l with
  | [] => false
  | _ :: _ => true
  end.

(** [s.split(sep)] for a separator of one character. *)
Fixpoint split (sep : ascii) (s : string) : list string :=
  match s with
  | EmptyString => [""]
  | String c r =>
      if Ascii.eqb c sep then "" :: split sep r
      else match split sep r with
           | [] => [String c ""]
           | h :: t => String c h :: t
           end
  end.

(** [sep.join(l)] *)
Fixpoint str_join (sep : string) (l : list string) : string :=
  match l with
  | [] => ""
  | [x] => x
  | x :: rest => x +:+ sep +:+ str_join sep rest
  end.

(** [sub in s] *)
Fixpoint contains (sub s : string) : bool :=
  String.prefix sub s ||
  match s with
  | EmptyString => false
  | String _ r => contains sub r
  end.

(** [s.replace(old, new)] for a non-empty [old]: occurrences are
    replaced from the left and do not overlap; [skip] counts the
    characters of an occurrence still to be dropped. *)
Fixpoint replace_from (old new : string) (skip : nat) (s : string) : string :=
  match s with
  | EmptyString => ""
  | String c r =>
      match skip with
      | Datatypes.S k => replace_from old new k r
      | O =>
          if String.prefix old s
          then new +:+ replace_from old new (String.length old - 1) r
          else String c (replace_from old new 0 r)
      end
  end.

Definition replace (old new s : string) : string :=
  replace_from old new 0 s.

(** One step of [posixpath.join]: an absolute component restarts the
    path, a separator is added unless the path is empty or already ends
    in one. *)
Definition join2 (path b : string) : string :=
  if startswith b "/" then b
  else if String.eqb path "" || endswith path "/" then path +:+ b
  else path +:+ "/" +:+ b.

(** [posixpath.join(a, *p)] *)
Definition join (a : string) (p : list string) : string :=
  fold_left join2 p a.

(** A directory or file name that [join] appends after a separator
    without further ado: it does not start with a separator, and unless
    it comes last it is not empty and does not end with one. *)
Definition relative (s : string) : bool := negb (startswith s "/").

Definition open_ended (s : string) : bool :=
  truthy_str s && negb (endswith s "/").

Definition plain_name (s : string) : bool := relative s && open_ended s.

(** [s.split(sep)] for a separator of any positive length: the string is
    scanned from the left, an occurrence of the separator closes the
    current piece, and the scan resumes after the occurrence; [skip]
    counts the characters of an occurrence still to be passed over. *)
Fixpoint split_from (sep : string) (skip : nat) (s : string) : list string :=
  match s with
  | EmptyString => [""]
  | String c r =>
      match skip with
      | Datatypes.S k => split_from sep k r
      | O =>
          if String.prefix sep s
          then "" :: split_from sep (String.length sep - 1) r
          else match split_from sep 0 r with
               | [] => [String c ""]
               | h :: t => String c h :: t
               end
      end
  end.

Definition split_str (sep s : string) : list string := split_from sep 0 s.

End Py.

(** ** The plain file-system repository *)

Module FileSystemDir.

Definition SUMMARY_NAME : string := "__ALL__".
Definition FIELDS_FNAME : string := "fields.json".
Definition PROV_DIR : string := "__prov__".
Definition LOCK_SUFFIX : string := ".lock".

(** Values held by fields and stored in the fields JSON document.
    Tuples and lists are both written as JSON arrays and are identified
    here. *)
Inductive value : Type :=
| VNone
| VBool (b : bool)
| VInt (z : Z)
| VStr (s : string)
| VList (l : list value).

(** What [open] finds at a path: a JSON document, a file that is not
    JSON, or a failure with the given [errno] (a directory, a permission
    problem, ...).  A path that is not in the table fails with [ENOENT]. *)
Inductive fentry : Type :=
| FJson (dct : gmap string value)
| FData
| FErr (errno : Z).

Inductive event : Type :=
| Acquire (lock : string)
| Release (lock : string)
| Read (path : string)
| Write (path : string)
| Makedirs (path : string).

(** The part of the operating system the repository sees. *)
Record world : Type := World {
  dirs : gset string;
  files : gmap string fentry;
  trace : list event
}.

Abbreviation M := (ST world).
Abbreviation ret := st_ret.
Abbreviation raise := st_raise.
Abbreviation lift := st_lift.

Definition emit (e : event) : M unit :=
  fun w => (Ok tt, World (dirs w) (files w) (trace w ++ [e])).

(** [os.path.exists] *)
Definition op_exists (p : string) (w : world) : bool :=
  bool_decide (p ∈ dirs w) || bool_decide (is_Some (files w !! p)).

(** The proper ancestors of a path: the non-empty prefixes that stop just
    before a separator. *)
Fixpoint ancestors_from (acc s : string) : list string :=
  match s with
  | EmptyString => []
  | String c r =>
      (if Ascii.eqb c "/" && negb (String.eqb acc "") then [acc] else [])
        ++ ancestors_from (acc +:+ String c EmptyString) r
  end.

(** [os.makedirs(p, mode)] on a path that does not exist: the leaf and
    every missing ancestor become directories. *)
Definition os_makedirs (p : string) : M unit :=
  fun w =>
    (Ok tt,
     World (dirs w ∪ list_to_set (ancestors_from "" p) ∪ {[p]}) (files w)
           (trace w ++ [Makedirs p])).

Section WithIds.

(** Subject and timepoint identifiers, and Python's [str] on them. *)
Context {Id : Type} (str : Id → string).

Record Dataset : Type := {
  ds_name : string;
  ds_depth : Z;
  inv_map_subject_id : Id → Id;
  inv_map_timepoint_id : Id → Id
}.

(** The attributes that file-groups, fields and provenance records
    share. *)
Record Item : Type := {
  fname : string;
  dataset : Dataset;
  subject_id : Id;
  timepoint_id : Id;
  tree_level : string;
  namespace : option string;
  derived : bool
}.

(** The two directory names chosen by the frequency of the item. *)
Definition level_dirs (item : Item) (depth : Z) (subject timepoint : Id)
  : result (string * string) :=
  if String.eqb (tree_level item) "per_dataset" then
    Ok (SUMMARY_NAME, SUMMARY_NAME)
  else if Py.startswith (tree_level item) "per_subject" then
    if (depth <? 2)%Z then Raise ArcanaInsufficientRepoDepthError
    else Ok (str subject, SUMMARY_NAME)
  else if Py.startswith (tree_level item) "per_timepoint" then
    if (depth <? 1)%Z then Raise ArcanaInsufficientRepoDepthError
    else Ok (SUMMARY_NAME, str timepoint)
  else if Py.startswith (tree_level item) "per_session" then
    Ok (str subject, str timepoint)
  else Raise AssertionError.

Definition acq_dir (root_dir : string) (depth : Z)
  (subj_dir timepoint_dir : string) : result string :=
  if (depth =? 2)%Z then Ok (Py.join root_dir [subj_dir; timepoint_dir])
  else if (depth =? 1)%Z then Ok (Py.join root_dir [subj_dir])
  else if (depth =? 0)%Z then Ok root_dir
  else Raise AssertionError.

(** The session directory of an item: the acquisition directory, or
    the sub-directory of its namespace that holds derived products. *)
Definition sess_dir_of (item : Item) (acq : string) : string :=
  match namespace item with
  | None => acq
  | Some ns => Py.join acq [ns]
  end.

(** What follows the frequency-resolved directory in the path of an item:
    the namespace, if there is one, and the file name. *)
Definition below (item : Item) : list string :=
  match namespace item with
  | None => [fname item]
  | Some ns => [ns; fname item]
  end.

(** [FileSystemDir.file_group_path(item, dataset=None, fname=None)] *)
Definition file_group_path (item : Item) (dataset_arg : option Dataset)
  (fname_arg : option string) : M string :=
  let fname := default (fname item) fname_arg in
  let dataset := default (dataset item) dataset_arg in
  let root_dir := ds_name dataset in
  let depth := ds_depth dataset in
  let subject := inv_map_subject_id dataset (subject_id item) in
  let timepoint := inv_map_timepoint_id dataset (timepoint_id item) in
  d ← lift (level_dirs item depth subject timepoint);
  acq ← lift (acq_dir root_dir depth d.1 d.2);
  let sess_dir := sess_dir_of item acq in
  _ ← (fun w =>
         if derived item && negb (op_exists sess_dir w)
         then os_makedirs sess_dir w
         else (Ok tt, w)) : M unit;
  ret (Py.join sess_dir [fname]).

(** The outcome of [file_group_path], whatever the world. *)
Definition path_outcome (item : Item) (ds : option Dataset)
  (fn : option string) : result string :=
  let d := default (dataset item) ds in
  match level_dirs item (ds_depth d)
          (inv_map_subject_id d (subject_id item))
          (inv_map_timepoint_id d (timepoint_id item)) with
  | Raise e => Raise e
  | Ok (sd, td) =>
      match acq_dir (ds_name d) (ds_depth d) sd td with
      | Raise e => Raise e
      | Ok acq => Ok (Py.join (sess_dir_of item acq) [default (fname item) fn])
      end
  end.

(** [FileSystemDir.fields_json_path(field, dataset=None)] *)
Definition fields_json_path (item : Item) (dataset_arg : option Dataset)
  : M string :=
  file_group_path item dataset_arg (Some FIELDS_FNAME).

(** A field of a node. [f_dtype] is the conversion [field.dtype]
    applies to a stored value ([int], [float], [str]). *)
Record Field : Type := {
  f_item : Item;
  f_name : string;
  f_array : bool;
  f_value : value;
  f_dtype : value → result value
}.

(** A file-group: [fg_path] is the private [_path] attribute, which the
    [path] property returns once it is set; [default_aux_file_paths] is
    the method of the file-group's format. *)
Record FileGroup : Type := {
  fg_item : Item;
  fg_path : option string;
  aux_files : list (string * string);
  default_aux_file_paths : string → list (string * string)
}.

(** The loop over the side cars in [get_file_group]. *)
Fixpoint check_aux_files (aux : list (string * string)) : M unit :=
  match aux with
  | [] => ret tt
  | (_, aux_path) :: rest =>
      fun w =>
        if op_exists aux_path w then check_aux_files rest w
        else (Raise ArcanaMissingDataException, w)
  end.

(** [FileSystemDir.get_file_group(file_group)] *)
Definition get_file_group (file_group : FileGroup)
  : M (string * list (string * string)) :=
  match fg_path file_group with
  | None =>
      primary_path ← file_group_path (fg_item file_group) None None;
      let aux := default_aux_file_paths file_group primary_path in
      _ ← (fun w =>
             if op_exists primary_path w then (Ok tt, w)
             else (Raise ArcanaMissingDataException, w)) : M unit;
      _ ← check_aux_files aux;
      ret (primary_path, aux)
  | Some p => ret (p, aux_files file_group)
  end.

(** [with InterProcessLock(lock): body]: the lock is released on every
    exit path.  The lock file itself, which the acquisition creates when
    it is missing, is not part of the world. *)
Definition with_lock {A} (lock : string) (body : M A) : M A :=
  fun w =>
    match emit (Acquire lock) w with
    | (_, w1) =>
        match body w1 with
        | (r, w2) =>
            (r, World (dirs w2) (files w2) (trace w2 ++ [Release lock]))
        end
    end.

(** [open(fpath, 'r')] followed by [json.load]. *)
Definition read_json (fpath : string) : M (gmap string value) :=
  fun w =>
    match files w !! fpath with
    | Some (FJson dct) =>
        (Ok dct, World (dirs w) (files w) (trace w ++ [Read fpath]))
    | Some FData => (Raise ValueError, w)
    | Some (FErr errno) => (Raise (IOError errno), w)
    | None => (Raise (IOError ENOENT), w)
    end.

(** [open(fpath, 'w')] followed by [json.dump]. *)
Definition write_json (fpath : string) (dct : gmap string value) : M unit :=
  fun w =>
    let written :=
      (Ok tt, World (dirs w) (<[fpath := FJson dct]> (files w))
                    (trace w ++ [Write fpath])) in
    match files w !! fpath with
    | Some (FErr errno) =>
        if (errno =? ENOENT)%Z then written else (Raise (IOError errno), w)
    | _ => written
    end.

(** Iterating over a value, as a comprehension or [list()] does. *)
Definition py_iter (v : value) : result (list value) :=
  match v with
  | VList l => Ok l
  | VStr s => Ok ((fun c => VStr (String c EmptyString)) <$> list_ascii_of_string s)
  | _ => Raise TypeError
  end.

(** [list(v)] *)
Definition py_list (v : value) : result value :=
  l ← py_iter v; Ok (VList l).

Fixpoint map_dtype (dtype : value → result value) (l : list value)
  : result (list value) :=
  match l with
  | [] => Ok []
  | v :: rest =>
      v' ← dtype v; rest' ← map_dtype dtype rest; Ok (v' :: rest')
  end.

(** The handler of [except (KeyError, IOError) as e] in [get_field]:
    an [IOError] other than a missing file is raised again; a
    [KeyError] has no [errno], the resulting [AttributeError] is
    swallowed, and the missing-data error is raised. *)
Definition missing_data_handler (e : exn) : exn :=
  match e with
  | KeyError _ => ArcanaMissingDataException
  | IOError errno =>
      if (errno =? ENOENT)%Z then ArcanaMissingDataException
      else IOError errno
  | other => other
  end.

Definition try_missing_data {A} (body : M A) : M A :=
  fun w =>
    match body w with
    | (Ok a, w') => (Ok a, w')
    | (Raise e, w') => (Raise (missing_data_handler e), w')
    end.

(** [FileSystemDir.get_field(field)] *)
Definition get_field (field : Field) : M value :=
  fpath ← fields_json_path (f_item field) None;
  try_missing_data (
    dct ← with_lock (fpath +:+ LOCK_SUFFIX) (read_json fpath);
    val ← lift (match dct !! f_name field with
                | Some v => Ok v
                | None => Raise (KeyError (f_name field))
                end);
    if f_array field then
      lift (l ← py_iter val; l' ← map_dtype (f_dtype field) l; Ok (VList l'))
    else lift (f_dtype field val)).

(** [FileSystemDir.put_field(field)] *)
Definition put_field (field : Field) : M unit :=
  fpath ← fields_json_path (f_item field) None;
  with_lock (fpath +:+ LOCK_SUFFIX) (
    dct ← (fun w =>
             match read_json fpath w with
             | (Raise (IOError errno), w') =>
                 if (errno =? ENOENT)%Z then (Ok ∅, w')
                 else (Raise (IOError errno), w')
             | other => other
             end) : M (gmap string value);
    v ← lift (if f_array field then py_list (f_value field)
              else Ok (f_value field));
    write_json fpath (<[f_name field := v]> dct)).

(** What [get_field] makes of the value it finds under the name of the
    field: the conversion of each element of an array, or of the value
    itself. *)
Definition converted (field : Field) (val : value) : result value :=
  if f_array field then
    l ← py_iter val; l' ← map_dtype (f_dtype field) l; Ok (VList l')
  else f_dtype field val.

End WithIds.

(** [FileSystemDir._filter_files(files, base_dir)] *)
Definition _filter_files (files : list string) (base_dir : string)
  : list string :=
  (fun f => Py.join base_dir [f])
    <$> filter (fun f => negb (Py.startswith f "."
                               || Py.startswith f FIELDS_FNAME) = true) files.

(** What the walk over a repository can raise: the repository error, with
    the files found and the level they were found at, and the
    [IndexError] of a [pop] from an empty list. *)
Inductive discovery_error : Type :=
| ArcanaRepositoryError (files : list string) (level : string)
| IndexError.

(** [path_parts.pop()]: the list without its last element, and that
    element. *)
Definition pop (l : list string) : discovery_error + list string * string :=
  match l with
  | [] => inl IndexError
  | _ :: _ => inr (removelast l, List.last l "")
  end.

Section WithDefaultIds.

(** The identifiers the repository gives to the only subject and the only
    visit of a shallow directory tree. *)
Context (DEFAULT_SUBJECT_ID DEFAULT_VISIT_ID : string).

(** [FileSystemDir._extract_ids_from_path(depth, path_parts, dirs, files)];
    the result [None] marks a directory that holds no data. *)
Definition _extract_ids_from_path (depth : Z)
  (path_parts dirs files : list string)
  : discovery_error + option (string * string * option string) :=
  let path_depth := Z.of_nat (length path_parts) in
  let located : discovery_error + option (list string * option string) :=
    if (path_depth =? depth)%Z then inr (Some (path_parts, None))
    else if (path_depth =? depth + 1)%Z && bool_decide (PROV_DIR ∈ dirs) then
      match pop path_parts with
      | inl e => inl e
      | inr (path_parts, namespace) => inr (Some (path_parts, Some namespace))
      end
    else if (path_depth <? depth)%Z
            && existsb (fun f => negb (Py.startswith f ".")) files then
      inl (ArcanaRepositoryError files
             (if (path_depth =? 0)%Z then "dataset" else "subject"))
    else inr None in
  match located with
  | inl e => inl e
  | inr None => inr None
  | inr (Some (path_parts, namespace)) =>
      inr (Some
             match path_parts with
             | [subj_id; timepoint_id] => (subj_id, timepoint_id, namespace)
             | [subj_id] => (subj_id, DEFAULT_VISIT_ID, namespace)
             | _ => (DEFAULT_SUBJECT_ID, DEFAULT_VISIT_ID, namespace)
             end)
  end.

End WithDefaultIds.

End FileSystemDir.

(** ** The abstract data store *)

Module DataStore.

Inductive call : Type := Connect | Disconnect.

(** What a backend supplies: its session handling ([connect],
    [disconnect]) and its serialised configuration. *)
Class Backend (S E : Type) : Type := {
  connect : S → S;
  disconnect : S → S;
  serialise : S → result E
}.

Section WithBackend.

Context {S E : Type} `{!Backend S E}.

(** A store object: the backend's own attributes, the
    [_connection_depth] counter, and a record of the [connect] and
    [disconnect] calls made so far. *)
Record store : Type := Store {
  backend : S;
  _connection_depth : Z;
  calls : list call
}.

(** A freshly constructed store: [_connection_depth] defaults to 0. *)
Definition new_store (b : S) : store := Store b 0 [].

(** [DataStore.__enter__] *)
Definition __enter__ (self : store) : store :=
  let self1 :=
    if (_connection_depth self =? 0)%Z
    then Store (connect (backend self)) (_connection_depth self)
               (calls self ++ [Connect])
    else self in
  Store (backend self1) (_connection_depth self1 + 1) (calls self1).

(** [DataStore.__exit__] *)
Definition __exit__ (self : store) : store :=
  let self1 :=
    Store (backend self) (_connection_depth self - 1) (calls self) in
  if (_connection_depth self1 =? 0)%Z
  then Store (disconnect (backend self1)) (_connection_depth self1)
             (calls self1 ++ [Disconnect])
  else self1.

(** The process-wide state [save] works on: the built-in stores by
    alias ([singletons()]) and the saved entries of the configuration
    file, [None] while the file does not exist. *)
Record registry : Type := Registry {
  singletons : gmap string S;
  config_file : option (gmap string E)
}.

(** [DataStore.load_saved_entries()] *)
Definition load_saved_entries (r : registry) : gmap string E :=
  match config_file r with
  | Some entries => entries
  | None => ∅
  end.

(** [DataStore.save_entries(entries)] *)
Definition save_entries (entries : gmap string E) (r : registry)
  : registry :=
  Registry (singletons r) (Some entries).

(** [DataStore.save(name)] *)
Definition save (name : string) (self : store) (r : registry)
  : result unit * store * registry :=
  if bool_decide (is_Some (singletons r !! name)) then
    (Raise (ArcanaNameError name), self, r)
  else
    let entries := load_saved_entries r in
    let self1 := __enter__ self in
    let serialised := serialise (backend self1) in
    let self2 := __exit__ self1 in
    match serialised with
    | Ok e => (Ok tt, self2, save_entries (<[name := e]> entries) r)
    | Raise e => (Raise e, self2, r)
    end.

(** [n] scoped acquisitions in a row, and [n] releases in a row. *)
Definition acquire (n : nat) (self : store) : store :=
  Nat.iter n __enter__ self.

Definition release (n : nat) (self : store) : store :=
  Nat.iter n __exit__ self.

End WithBackend.

Arguments store S : clear implicits.
Arguments registry S E : clear implicits.

Section WithClasses.

Context {S E : Type} `{!Backend S E}.

(** The construction of a store from a saved entry: the class named under
    the key [type] is resolved and called with the other keys of the
    entry. *)
Context (instantiate : E → result S).

(** [DataStore.remove(name)] *)
Definition remove (name : string) (r : registry S E)
  : result unit * registry S E :=
  let entries := load_saved_entries r in
  match entries !! name with
  | None => (Raise (KeyError name), r)
  | Some _ => (Ok tt, save_entries (delete name entries) r)
  end.

(** [DataStore.load(name)] *)
Definition load (name : string) (r : registry S E) : result S :=
  let entries := load_saved_entries r in
  match entries !! name with
  | Some entry => instantiate entry
  | None =>
      match singletons r !! name with
      | Some store => Ok store
      | None => Raise (ArcanaNameError name)
      end
  end.

(** No saved entry bears the alias of a built-in store. *)
Definition no_shadowing (r : registry S E) : Prop :=
  ∀ alias, is_Some (singletons r !! alias) →
           load_saved_entries r !! alias = None.

End WithClasses.

(** The entries and exits of scoped blocks a client makes, in order. *)
Inductive block_event : Type := Entry | Exit.

Definition step {S E : Type} `{!Backend S E} (self : store S)
  (ev : block_event) : store S :=
  match ev with
  | Entry => __enter__ self
  | Exit => __exit__ self
  end.

Definition run {S E : Type} `{!Backend S E} (evs : list block_event)
  (self : store S) : store S :=
  fold_left step evs self.

(** The nesting depth after a sequence of events, started at [d]; [None]
    when an exit has no entry to match. *)
Fixpoint nesting (evs : list block_event) (d : nat) : option nat :=
  match evs with
  | [] => Some d
  | Entry :: rest => nesting rest (Datatypes.S d)
  | Exit :: rest =>
      match d with
      | O => None
      | Datatypes.S d' => nesting rest d'
      end
  end.

End DataStore.

(** ** The XNAT store reached through the container service *)

Module XnatViaCS.

(** [pathlib.Path] on a POSIX system: whether the path is anchored at the
    root, and its components.  Empty and [.] components are dropped when
    a string is parsed. *)
Record Path : Type := MkPath {
  absolute : bool;
  parts : list string
}.

Definition keep_part (p : string) : bool :=
  negb (String.eqb p "") && negb (String.eqb p ".").

(** [Path(s)] *)
Definition parse (s : string) : Path :=
  MkPath (Py.startswith s "/") (filter (fun p => keep_part p = true) (Py.split "/" s)).

(** [p / q] for two paths *)
Definition div (p q : Path) : Path :=
  if absolute q then q else MkPath (absolute p) (parts p ++ parts q).

(** [p.joinpath] over a list of segments, and [p / s] for a string [s] *)
Definition joinpath (p : Path) (segments : list string) : Path :=
  fold_left (fun acc s => div acc (parse s)) segments p.

(** [p.name] *)
Definition name (p : Path) : string := List.last (parts p) "".

(** [p.parent] *)
Definition parent (p : Path) : Path :=
  MkPath (absolute p) (removelast (parts p)).

Definition INPUT_MOUNT : Path := parse "/input".
Definition OUTPUT_MOUNT : Path := parse "/output".
Definition WORK_MOUNT : Path := parse "/work".

(** *** The pattern applied to a URI

    The pattern reads: [/data/], an optional [archive/], [projects/], an
    identifier and a slash, an optional [subjects/] level, an optional
    [experiments/] level (each an identifier and a slash), and the group
    [path], which takes the rest of the line up to the end of the string.
    An identifier is a non-empty run of letters, digits, hyphens and
    underscores. *)

Definition id_char (c : ascii) : bool :=
  let n := nat_of_ascii c in
  ((48 <=? n) && (n <=? 57) || (65 <=? n) && (n <=? 90)
   || (97 <=? n) && (n <=? 122) || (n =? 45) || (n =? 95))%nat.

(** The longest run of identifier characters at the front of [s], and
    what follows it. *)
Fixpoint span_id (s : string) : string * string :=
  match s with
  | EmptyString => ("", "")
  | String c r =>
      if id_char c then
        let '(run, rest) := span_id r in (String c run, rest)
      else ("", s)
  end.

Fixpoint strip_prefix (p s : string) : option string :=
  match p, s with
  | EmptyString, _ => Some s
  | String a p', String b s' =>
      if Ascii.eqb a b then strip_prefix p' s' else None
  | String _ _, EmptyString => None
  end.

(** An identifier: a non-empty string that is one run of identifier
    characters. *)
Definition identifier (s : string) : bool :=
  negb (String.eqb s "") && forallb id_char (list_ascii_of_string s).

(** An identifier followed by a slash. *)
Definition ident_slash (s : string) : option string :=
  let '(run, rest) := span_id s in
  if String.eqb run "" then None else strip_prefix "/" rest.

(** An optional level: the keyword, an identifier and a slash. *)
Definition optional_level (kw s : string) : string :=
  match strip_prefix kw s ≫= ident_slash with
  | Some rest => rest
  | None => s
  end.

Definition newline : ascii := ascii_of_nat 10.

(** The group [path] and the end anchor: no line break may occur,
    except as the very last character, which stays outside the group. *)
Fixpoint dot_star_end (s : string) : option string :=
  match s with
  | EmptyString => Some ""
  | String c r =>
      if Ascii.eqb c newline then
        (if String.eqb r "" then Some "" else None)
      else String c <$> dot_star_end r
  end.

(** [re.match(pattern, uri)] followed by [.group('path')]; [None] when
    the pattern does not match. *)
Definition match_uri (uri : string) : option string :=
  r0 ← strip_prefix "/data/" uri;
  let r1 := default r0 (strip_prefix "archive/" r0) in
  r2 ← strip_prefix "projects/" r1;
  r3 ← ident_slash r2;
  dot_star_end (optional_level "experiments/" (optional_level "subjects/" r3)).

(** The path of a resource below the mount, from the path group of the
    URI. *)
Definition mount_relpath (path : string) : string :=
  let path :=
    if Py.contains "scans" path
    then Py.replace "resources/" "" (Py.replace "scans" "SCANS" path)
    else path in
  Py.replace "resources" "RESOURCES" path.

(** The operating-system calls the store makes, over a world [W]. *)
Class OS (W : Type) : Type := {
  iterdir : Path → ST W (list Path);
  rmtree_ignore_errors : Path → ST W unit;
  makedirs_exist_ok : Path → ST W unit;
  symlink : Path → Path → ST W unit;
  copytree : Path → Path → ST W unit;
  copyfile : Path → Path → ST W unit
}.

Section WithSpace.

(** The data space ([Clinical]) and its two members the store names. *)
Context {Freq : Type} `{!EqDecision Freq}.
Context (Clinical_dataset Clinical_session : Freq).

Record DataNode : Type := {
  frequency : Freq;
  id : string
}.

Record FileGroup : Type := MkFileGroup {
  uri : option string;
  path : string;
  is_dir : bool;
  data_node : DataNode
}.

(** The attributes of the store that its methods read. *)
Record XnatViaCS : Type := {
  store_frequency : Freq;
  node_id : option string;
  input_mount : Path;
  output_mount : Path
}.

Context {W : Type} `{!OS W}.

(** What the store inherits from [Xnat] and calls on the file-group:
    the API retrieval the fallback delegates to, [cache_path],
    [_make_uri], and [FileGroup.copy_ext]. *)
Context (Xnat_get_file_group : FileGroup → ST W (list Path)).
Context (cache_path : FileGroup → Path).
Context (_make_uri : DataNode → string).
Context (copy_ext : FileGroup → Path → Path → Path).

(** [XnatViaCS.get_input_mount(file_group)] *)
Definition get_input_mount (self : XnatViaCS) (file_group : FileGroup)
  : result Path :=
  let data_node := data_node file_group in
  if bool_decide (store_frequency self = frequency data_node) then
    Ok (input_mount self)
  else if bool_decide (store_frequency self = Clinical_dataset)
          && bool_decide (frequency data_node = Clinical_session) then
    Ok (joinpath (input_mount self) [id data_node])
  else Raise ArcanaNoDirectXnatMountException.

(** [XnatViaCS.file_group_stem_path(file_group)] *)
Definition file_group_stem_path (self : XnatViaCS) (file_group : FileGroup)
  : Path :=
  joinpath (output_mount self) (Py.split "/" (path file_group)).

(** The loop that links the members of a resource directory into the
    scratch directory, leaving the catalogue out. *)
Fixpoint link_items (dir_path : Path) (items : list Path) : ST W unit :=
  match items with
  | [] => mret tt
  | item :: rest =>
      _ ← (if negb (Py.endswith (name item) "_catalog.xml")
           then symlink item (joinpath dir_path [name item])
           else mret tt);
      link_items dir_path rest
  end.

(** The body of [get_file_group_paths] once the mount is known. *)
Definition direct_access (self : XnatViaCS) (mount : Path)
  (file_group : FileGroup) : ST W (list Path) :=
  if Py.truthy_opt_str (uri file_group) then
    match match_uri (default "" (uri file_group)) with
    | None => st_raise AttributeError
    | Some path =>
        let resource_path := joinpath mount [mount_relpath path] in
        if is_dir file_group then
          let dir_path := cache_path file_group in
          _ ← rmtree_ignore_errors dir_path;
          _ ← makedirs_exist_ok dir_path;
          items ← iterdir resource_path;
          _ ← link_items dir_path items;
          mret [dir_path]
        else iterdir resource_path
    end
  else
    let stem_path := file_group_stem_path self file_group in
    if is_dir file_group then mret [stem_path]
    else iterdir stem_path.

(** [XnatViaCS.get_file_group_paths(file_group)] *)
Definition get_file_group_paths (self : XnatViaCS) (file_group : FileGroup)
  : ST W (list Path) :=
  match get_input_mount self file_group with
  | Raise ArcanaNoDirectXnatMountException =>
      Xnat_get_file_group file_group
  | Raise e => st_raise e
  | Ok mount => direct_access self mount file_group
  end.

(** The loop of [put_file_group_paths] over the files handed in; it
    returns the targets in order. *)
Fixpoint copy_all (file_group : FileGroup) (stem_path : Path)
  (fs_paths : list Path) : ST W (list Path) :=
  match fs_paths with
  | [] => mret []
  | fs_path :: rest =>
      target_path ←
        (if is_dir file_group then
           _ ← copytree fs_path stem_path; mret stem_path
         else
           let target_path := copy_ext file_group fs_path stem_path in
           _ ← copyfile fs_path target_path; mret target_path);
      targets ← copy_all file_group stem_path rest;
      mret (target_path :: targets)
  end.

(** [XnatViaCS.put_file_group_paths(file_group, fs_paths)]: the result
    carries the file-group as the call leaves it. *)
Definition put_file_group_paths (self : XnatViaCS) (file_group : FileGroup)
  (fs_paths : list Path) : ST W (list Path * FileGroup) :=
  let stem_path := file_group_stem_path self file_group in
  _ ← makedirs_exist_ok (parent stem_path);
  cache_paths ← copy_all file_group stem_path fs_paths;
  let file_group' :=
    MkFileGroup
      (Some (_make_uri (data_node file_group) +:+ "/RESOURCES/"
               +:+ path file_group))
      (path file_group) (is_dir file_group) (data_node file_group) in
  mret (cache_paths, file_group').

End WithSpace.

End XnatViaCS.

(** ** BIDS dataset metadata *)

Module Bids.

(** JSON values, as [json.load] returns them and [json.dump] accepts
    them; [JNull] is Python's [None].  Attributes that the classes
    declare as strings or lists of strings hold such values. *)
Inductive json : Type :=
| JNull
| JBool (b : bool)
| JInt (z : Z)
| JStr (s : string)
| JList (l : list json)
| JDict (d : gmap string json).

(** Truthiness, as [if x:] tests it. *)
Definition truthy (j : json) : bool :=
  match j with
  | JNull => false
  | JBool b => b
  | JInt z => negb (z =? 0)%Z
  | JStr s => negb (String.eqb s "")
  | JList l => Py.truthy_list l
  | JDict d => negb (Nat.eqb (size d) 0)
  end.

(** [x == s] for a string literal [s] *)
Definition is_str (j : json) (s : string) : bool :=
  match j with
  | JStr s' => String.eqb s' s
  | _ => false
  end.

(** [if v: dct[k] = v] *)
Definition set_if_truthy (k : string) (v : json) (dct : gmap string json)
  : gmap string json :=
  if truthy v then <[k := v]> dct else dct.

(** [dct.get(k)] *)
Definition get (dct : json) (k : string) : result json :=
  match dct with
  | JDict d => Ok (default JNull (d !! k))
  | _ => Raise AttributeError
  end.

(** [dct.get(k, dflt)] *)
Definition get_default (dct : json) (k : string) (dflt : json) : result json :=
  match dct with
  | JDict d => Ok (default dflt (d !! k))
  | _ => Raise AttributeError
  end.

(** [dct[k]] for a string [k] *)
Definition item (dct : json) (k : string) : result json :=
  match dct with
  | JDict d =>
      match d !! k with
      | Some v => Ok v
      | None => Raise (KeyError k)
      end
  | _ => Raise TypeError
  end.

(** [k in dct] where [dct] is a dictionary *)
Definition has_key (dct : json) (k : string) : bool :=
  match dct with
  | JDict d => bool_decide (is_Some (d !! k))
  | _ => false
  end.

(** The elements a [for] loop sees.  A dictionary yields its keys; their
    order is not kept by this model. *)
Definition iter (j : json) : result (list json) :=
  match j with
  | JList l => Ok l
  | JDict d => Ok (JStr <$> (map_to_list d).*1)
  | JStr s => Ok ((fun c => JStr (String c EmptyString)) <$> list_ascii_of_string s)
  | _ => Raise TypeError
  end.

Fixpoint map_result {A B} (f : A → result B) (l : list A) : result (list B) :=
  match l with
  | [] => Ok []
  | a :: rest => b ← f a; bs ← map_result f rest; Ok (b :: bs)
  end.

(** *** [ContainerMetadata] *)

Record ContainerMetadata : Type := {
  c_type : json;
  c_tag : json;
  c_uri : json
}.

(** [ContainerMetadata.to_dict] *)
Definition container_to_dict (self : ContainerMetadata) : gmap string json :=
  set_if_truthy "URI" (c_uri self)
    (set_if_truthy "Tag" (c_tag self)
       (set_if_truthy "Type" (c_type self) ∅)).

(** [ContainerMetadata.from_dict] *)
Definition container_from_dict (dct : json) : result (option ContainerMetadata) :=
  match dct with
  | JNull => Ok None
  | _ =>
      type ← get dct "Type";
      tag ← get dct "Tag";
      uri ← get dct "URI";
      Ok (Some {| c_type := type; c_tag := tag; c_uri := uri |})
  end.

(** *** [GeneratorMetadata] *)

Record GeneratorMetadata : Type := {
  g_name : json;
  g_version : json;
  g_description : json;
  g_code_url : json;
  g_container : option ContainerMetadata
}.

(** [GeneratorMetadata.to_dict] *)
Definition generator_to_dict (self : GeneratorMetadata) : gmap string json :=
  let dct :=
    set_if_truthy "CodeURL" (g_code_url self)
      (set_if_truthy "Description" (g_description self)
         (set_if_truthy "Version" (g_version self)
            (<["Name" := g_name self]> ∅))) in
  match g_container self with
  | Some c => <["Container" := JDict (container_to_dict c)]> dct
  | None => dct
  end.

(** [GeneratorMetadata.from_dict] *)
Definition generator_from_dict (dct : json) : result GeneratorMetadata :=
  name ← item dct "Name";
  version ← get dct "Version";
  description ← get dct "Description";
  code_url ← get dct "CodeURL";
  container_dct ← get dct "Container";
  container ← container_from_dict container_dct;
  Ok {| g_name := name; g_version := version; g_description := description;
        g_code_url := code_url; g_container := container |}.

(** *** [SourceDatasetMetadata] *)

Record SourceDatasetMetadata : Type := {
  s_url : json;
  s_doi : json;
  s_version : json
}.

(** [SourceDatasetMetadata.to_dict] *)
Definition source_to_dict (self : SourceDatasetMetadata) : gmap string json :=
  set_if_truthy "Version" (s_version self)
    (set_if_truthy "DOI" (s_doi self)
       (set_if_truthy "URL" (s_url self) ∅)).

(** [SourceDatasetMetadata.from_dict] *)
Definition source_from_dict (dct : json) : result (option SourceDatasetMetadata) :=
  match dct with
  | JNull => Ok None
  | _ =>
      url ← get dct "URL";
      doi ← get dct "DOI";
      version ← get dct "Version";
      Ok (Some {| s_url := url; s_doi := doi; s_version := version |})
  end.

(** *** Ordered dictionaries with string keys *)

Definition odict (V : Type) : Type := list (string * V).

Fixpoint od_get {V} (k : string) (d : odict V) : option V :=
  match d with
  | [] => None
  | (k', v) :: rest => if String.eqb k k' then Some v else od_get k rest
  end.

(** [d[k] = v]: an existing key keeps its place. *)
Fixpoint od_set {V} (k : string) (v : V) (d : odict V) : odict V :=
  match d with
  | [] => [(k, v)]
  | (k', v') :: rest =>
      if String.eqb k k' then (k', v) :: rest else (k', v') :: od_set k v rest
  end.

Fixpoint od_remove {V} (k : string) (d : odict V) : odict V :=
  match d with
  | [] => []
  | (k', v') :: rest =>
      if String.eqb k k' then rest else (k', v') :: od_remove k rest
  end.

(** [dict(pairs)] *)
Definition od_of_pairs {V} (pairs : list (string * V)) : odict V :=
  fold_left (fun d kv => od_set kv.1 kv.2 d) pairs [].

(** [d.pop(k)] *)
Definition od_pop {V} (k : string) (d : odict V) : result (V * odict V) :=
  match od_get k d with
  | Some v => Ok (v, od_remove k d)
  | None => Raise (KeyError k)
  end.

(** *** Text files *)

Definition LF : ascii := ascii_of_nat 10.
Definition CR : ascii := ascii_of_nat 13.
Definition TAB : ascii := ascii_of_nat 9.

(** What a file opened for reading in text mode delivers: a carriage
    return, alone or followed by a line feed, arrives as one line feed. *)
Fixpoint universal_newlines (s : string) : string :=
  match s with
  | EmptyString => ""
  | String c r =>
      if Ascii.eqb c CR then
        String LF
          match r with
          | String c' r' =>
              if Ascii.eqb c' LF then universal_newlines r'
              else universal_newlines r
          | EmptyString => ""
          end
      else String c (universal_newlines r)
  end.

(** The strings successive calls of [f.readline()] return, each with its
    line feed; at the end of the file [readline] returns the empty
    string. *)
Fixpoint readlines (s : string) : list string :=
  match s with
  | EmptyString => []
  | String c r =>
      if Ascii.eqb c LF then String c "" :: readlines r
      else match readlines r with
           | [] => [String c ""]
           | l :: ls => String c l :: ls
           end
  end.

(** [s[:-1]] *)
Fixpoint drop_last (s : string) : string :=
  match s with
  | EmptyString => ""
  | String c EmptyString => ""
  | String c r => String c (drop_last r)
  end.

(** *** [BidsDataset] *)

Record BidsDataset : Type := {
  name : json;
  participants : odict (odict string);
  acknowledgements : json;
  authors : json;
  bids_version : json;
  doi : json;
  funding : json;
  bids_type : json;
  license : json;
  references : json;
  how_to_acknowledge : json;
  ethics_approvals : json;
  generated_by : list GeneratorMetadata;
  sources : list (option SourceDatasetMetadata);
  readme : option string
}.

(** The attribute defaults of a newly constructed [BidsDataset]. *)
Definition new_dataset : BidsDataset := {|
  name := JStr "Autogenerated-dataset";
  participants := [];
  acknowledgements := JStr "Generic BIDS dataset";
  authors := JList [];
  bids_version := JStr "1.0.1";
  doi := JNull;
  funding := JList [];
  bids_type := JStr "derivative";
  license := JStr "CC0";
  references := JList [];
  how_to_acknowledge := JStr "see licence";
  ethics_approvals := JList [];
  generated_by := [];
  sources := [];
  readme := None
|}.

(** The three files of the root directory that hold the metadata. The
    description is kept as the document itself: [json.load] returns what
    [json.dump] was given. The two text files are kept as their
    characters; on a POSIX system writing in text mode stores a string as
    it is, and reading applies [universal_newlines]. *)
Record root_dir : Type := RootDir {
  dataset_description_json : option json;
  participants_tsv : option string;
  README : option string
}.

Definition source_entry (d : option SourceDatasetMetadata) : result json :=
  match d with
  | Some s => Ok (JDict (source_to_dict s))
  | None => Raise AttributeError
  end.

(** The dictionary [save_metadata] dumps. *)
Definition description_dict (self : BidsDataset) (source_dicts : list json)
  : gmap string json :=
  let dct := <["BIDSVersion" := bids_version self]> (<["Name" := name self]> ∅) in
  let dct := set_if_truthy "DatasetType" (bids_type self) dct in
  let dct := set_if_truthy "Licence" (license self) dct in
  let dct := set_if_truthy "Authors" (authors self) dct in
  let dct := set_if_truthy "Acknowledgements" (acknowledgements self) dct in
  let dct := set_if_truthy "HowToAcknowledge" (how_to_acknowledge self) dct in
  let dct := set_if_truthy "Funding" (funding self) dct in
  let dct := set_if_truthy "EthicsApprovals" (ethics_approvals self) dct in
  let dct := set_if_truthy "ReferencesAndLinks" (references self) dct in
  let dct := set_if_truthy "DatasetDOI" (doi self) dct in
  let dct :=
    if is_str (bids_type self) "derivative"
    then <["GeneratedBy" :=
             JList ((fun g => JDict (generator_to_dict g)) <$> generated_by self)]> dct
    else dct in
  if Py.truthy_list (sources self)
  then <["sourceDatasets" := JList source_dicts]> dct
  else dct.

(** [[pcpt_attrs[c] for c in col_names]] *)
Fixpoint row_values (pcpt_attrs : odict string) (col_names : list string)
  : result (list string) :=
  match col_names with
  | [] => Ok []
  | c :: rest =>
      match od_get c pcpt_attrs with
      | Some v => vs ← row_values pcpt_attrs rest; Ok (v :: vs)
      | None => Raise (KeyError c)
      end
  end.

(** [list(next(iter(self.participants.values())).keys())] *)
Definition columns (ps : odict (odict string)) : list string :=
  match ps with
  | (_, attrs) :: _ => attrs.*1
  | [] => []
  end.

Definition tsv_line (cells : list string) : string :=
  Py.str_join (String TAB "") cells +:+ String LF "".

(** The loop that writes one line per participant; the state is the text
    written so far. *)
Fixpoint write_rows (col_names : list string) (rows : odict (odict string))
  : ST string unit :=
  match rows with
  | [] => mret tt
  | (pcpt_id, pcpt_attrs) :: rest =>
      vs ← st_lift (row_values pcpt_attrs col_names);
      _ ← (fun text => (Ok tt, text +:+ tsv_line (pcpt_id :: vs))) : ST string unit;
      write_rows col_names rest
  end.

Definition write_participants (self : BidsDataset) : ST string unit :=
  let col_names := columns (participants self) in
  _ ← (fun text => (Ok tt, text +:+ tsv_line ("participant_id" :: col_names)))
      : ST string unit;
  write_rows col_names (participants self).

(** [BidsDataset.save_metadata()] *)
Definition save_metadata (self : BidsDataset) : ST root_dir unit :=
  fun root =>
    if negb (Py.truthy_list (participants self)) then
      (Raise ArcanaEmptyDatasetError, root)
    else
      match map_result source_entry (sources self) with
      | Raise e => (Raise e, root)
      | Ok source_dicts =>
          let root1 :=
            RootDir (Some (JDict (description_dict self source_dicts)))
                    (participants_tsv root) (README root) in
          match write_participants self "" with
          | (Raise e, text) =>
              (Raise e, RootDir (dataset_description_json root1) (Some text)
                                (README root1))
          | (Ok _, text) =>
              let root2 :=
                RootDir (dataset_description_json root1) (Some text)
                        (README root1) in
              match readme self with
              | Some s =>
                  (Ok tt, RootDir (dataset_description_json root2)
                                  (participants_tsv root2) (Some s))
              | None => (Ok tt, root2)
              end
          end
      end.

(** The loop of [load_metadata] over the lines that follow the header. *)
Fixpoint read_rows (cols : list string) (lines : list string)
  (acc : odict (odict string)) : result (odict (odict string)) :=
  match lines with
  | [] => Ok acc
  | l :: rest =>
      let line := drop_last l in
      if String.eqb line "" then Ok acc
      else
        let d := od_of_pairs (zip cols (Py.split TAB line)) in
        '(pcpt_id, d') ← od_pop "participant_id" d;
        read_rows cols rest (od_set pcpt_id d' acc)
  end.

Definition read_participants (text : string) : result (odict (odict string)) :=
  let lines := readlines (universal_newlines text) in
  let cols := Py.split TAB (drop_last (hd "" lines)) in
  read_rows cols (tl lines) [].

(** [BidsDataset.load_metadata()]: the dataset as a completed call leaves
    it. *)
Definition load_metadata (self : BidsDataset) (root : root_dir)
  : result BidsDataset :=
  match dataset_description_json root with
  | None => Raise ArcanaEmptyDatasetError
  | Some dct =>
      name' ← item dct "Name";
      bids_version' ← item dct "BIDSVersion";
      bids_type' ← get dct "DatasetType";
      license' ← get dct "Licence";
      authors' ← get_default dct "Authors" (JList []);
      acknowledgements' ← get dct "Acknowledgements";
      how_to_acknowledge' ← get dct "HowToAcknowledge";
      funding' ← get_default dct "Funding" (JList []);
      ethics_approvals' ← get_default dct "EthicsApprovals" (JList []);
      references' ← get_default dct "ReferencesAndLinks" (JList []);
      doi' ← get dct "DatasetDOI";
      generated_by' ←
        (if is_str bids_type' "derivative" then
           if negb (has_key dct "GeneratedBy") then Raise ArcanaError
           else
             v ← item dct "GeneratedBy";
             l ← iter v;
             map_result generator_from_dict l
         else Ok (generated_by self));
      sources' ←
        (if has_key dct "sourceDatasets" then
           v ← item dct "sourceDatasets";
           l ← iter v;
           map_result source_from_dict l
         else Ok (sources self));
      participants' ←
        match participants_tsv root with
        | Some text => read_participants text
        | None => Raise (IOError ENOENT)
        end;
      Ok {| name := name'; participants := participants';
            acknowledgements := acknowledgements'; authors := authors';
            bids_version := bids_version'; doi := doi'; funding := funding';
            bids_type := bids_type'; license := license';
            references := references';
            how_to_acknowledge := how_to_acknowledge';
            ethics_approvals := ethics_approvals';
            generated_by := generated_by'; sources := sources';
            readme := universal_newlines <$> README root |}
  end.

(** [BidsDataset.load(path)], as far as the metadata goes. *)
Definition load (root : root_dir) : result BidsDataset :=
  load_metadata new_dataset root.

(** *** Datasets that survive a round trip

    An optional attribute is either [None] or truthy, so that it is
    either left out and read back as [None], or written and read back
    as it is; a list attribute is either the empty list or truthy. *)
Definition optional (j : json) : Prop := j = JNull ∨ truthy j = true.

Definition listlike (j : json) : Prop := j = JList [] ∨ truthy j = true.

Definition container_ok (c : ContainerMetadata) : Prop :=
  optional (c_type c) ∧ optional (c_tag c) ∧ optional (c_uri c).

Definition generator_ok (g : GeneratorMetadata) : Prop :=
  optional (g_version g) ∧ optional (g_description g)
  ∧ optional (g_code_url g)
  ∧ match g_container g with
    | Some c => container_ok c
    | None => True
    end.

Definition source_ok (o : option SourceDatasetMetadata) : Prop :=
  match o with
  | Some s => optional (s_url s) ∧ optional (s_doi s) ∧ optional (s_version s)
  | None => False
  end.

(** A cell of the participants table holds no tab, line feed or
    carriage return. *)
Fixpoint avoids (c : ascii) (s : string) : bool :=
  match s with
  | EmptyString => true
  | String c' r => negb (Ascii.eqb c' c) && avoids c r
  end.

Definition clean (s : string) : bool :=
  avoids TAB s && avoids LF s && avoids CR s.




Definition row_ok (cols : list string) (row : string * odict string) : Prop :=
  row.1 ≠ "" ∧ clean row.1 = true
  ∧ row.2.*1 = cols ∧ Forall (fun v => clean v = true) row.2.*2.

Definition participants_ok (ps : odict (odict string)) : Prop :=
  Py.truthy_list ps = true
  ∧ NoDup ps.*1
  ∧ NoDup (columns ps)
  ∧ ("participant_id" ∉ columns ps)
  ∧ Forall (fun c => clean c = true) (columns ps)
  ∧ Forall (row_ok (columns ps)) ps.


(** These conditions can be decided, hence checked by evaluation. *)
#[global] Instance optional_dec (j : json) : Decision (optional j).
Proof.
  unfold optional. destruct (truthy j) eqn:E; [left; by right|].
  destruct j; try (left; by left); right; intros [H|H];
    solve [discriminate H | congruence].
Defined.

#[global] Instance listlike_dec (j : json) : Decision (listlike j).
Proof.
  unfold listlike. destruct (truthy j) eqn:E; [left; by right|].
  destruct j as [| | | |[|x l]|]; try (left; by left); right; intros [H|H];
    solve [discriminate H | congruence].
Defined.

#[global] Instance container_ok_dec (c : ContainerMetadata) :
  Decision (container_ok c).
Proof. unfold container_ok. apply _. Defined.

#[global] Instance generator_ok_dec (g : GeneratorMetadata) :
  Decision (generator_ok g).
Proof. unfold generator_ok. destruct (g_container g); apply _. Defined.

#[global] Instance source_ok_dec (o : option SourceDatasetMetadata) :
  Decision (source_ok o).
Proof. unfold source_ok. destruct o; apply _. Defined.

#[global] Instance row_ok_dec (cols : list string) (row : string * odict string) :
  Decision (row_ok cols row).
Proof. unfold row_ok. apply _. Defined.

#[global] Instance participants_ok_dec (ps : odict (odict string)) :
  Decision (participants_ok ps).
Proof. unfold participants_ok. apply _. Defined.



(** *** Names of items in a BIDS tree *)

Definition PATH_SEP : string := "__l__".

(** [BidsFormat.escape_name(path)] *)
Definition escape_name (path : string) : string :=
  Py.str_join PATH_SEP (Py.split "/" path).

(** [BidsFormat.unescape_name(name)] *)
Definition unescape_name (name : string) : string :=
  Py.str_join "/" (Py.split_str PATH_SEP name).

(** The characters the pattern of [bidsify_id] keeps: ASCII letters and
    digits. *)
Definition alnum (c : ascii) : bool :=
  let n := nat_of_ascii c in
  ((48 <=? n) && (n <=? 57) || (65 <=? n) && (n <=? 90)
   || (97 <=? n) && (n <=? 122))%nat.

(** [re.sub(pattern, '', s)] for the pattern that matches one character
    other than a letter or a digit. *)
Fixpoint strip_non_alnum (s : string) : string :=
  match s with
  | EmptyString => ""
  | String c r =>
      if alnum c then String c (strip_non_alnum r) else strip_non_alnum r
  end.

(** The task [bidsify_id] of [BidsFormat.wrap_app]; [None] is
    [attr.NOTHING]. *)
Definition bidsify_id (id : option string) : string :=
  let id := default "sub-DEFAULT" id in
  let id := strip_non_alnum id in
  if negb (Py.startswith id "sub-") then "sub-" +:+ id else id.

End Bids.

(** ** The local cache of a remote store *)

Module CacheManager.

(** Modelled from the spec: the checksums of a file-group, which map the
    relative path within the group to the hex digest, the primary file
    under the key of one dot. *)
Abbreviation checksums := (gmap string string).

(** Modelled from the spec: a cached copy of a file-group. A file-group
    is addressed by its cache directory, which is derived from the path
    of its node and its name. *)
Record cache_entry : Type := CacheEntry {
  local_paths : list string;
  cached_checksums : checksums
}.

(** Modelled from the spec: a file-group as the remote store holds it. *)
Record remote_item : Type := RemoteItem {
  remote_files : list string;
  remote_checksums : checksums
}.

(** Modelled from the spec: the local cache, the remote store, and the
    downloads made so far. *)
Record world : Type := World {
  cache : gmap string cache_entry;
  remote : gmap string remote_item;
  downloads : list string
}.

(** Modelled from the spec: the download of a remote file-group into its
    cache directory; the cache then holds the remote checksums. *)
Definition download (cache_dir : string) : ST world (list string) :=
  fun w =>
    match remote w !! cache_dir with
    | None => (Raise ArcanaMissingDataException, w)
    | Some item =>
        let paths := (fun f => Py.join cache_dir [f]) <$> remote_files item in
        (Ok paths,
         World (<[cache_dir := CacheEntry paths (remote_checksums item)]> (cache w))
               (remote w) (downloads w ++ [cache_dir]))
    end.

(** Modelled from the spec: the body of [get_file_group_paths] of a
    caching store, which is not among the sources (the store contract
    only declares the method, and the override in the container-service
    store reads the archive mount and takes no [cache_only] argument).
    A cached copy is checked against the remote checksums; under
    [cache_only] a mismatch is an error, otherwise the copy is fetched
    again; a file-group that is not cached is downloaded. *)
Definition get_file_group_paths (cache_dir : string) (cache_only : bool)
  : ST world (list string) :=
  fun w =>
    match cache w !! cache_dir with
    | Some entry =>
        let matches :=
          bool_decide (Some (cached_checksums entry)
                       = remote_checksums <$> remote w !! cache_dir) in
        if matches then (Ok (local_paths entry), w)
        else if cache_only then (Raise ArcanaCacheError, w)
        else download cache_dir w
    | None => download cache_dir w
    end.

End CacheManager.

(** ** Sample data *)

Module Examples.

(** *** A plain repository *)

Definition study (depth : Z) : @FileSystemDir.Dataset string := {|
  FileSystemDir.ds_name := "/data/study";
  FileSystemDir.ds_depth := depth;
  FileSystemDir.inv_map_subject_id := id;
  FileSystemDir.inv_map_timepoint_id := id
|}.

Definition scan (level : string) (depth : Z) (ns : option string)
  : @FileSystemDir.Item string := {|
  FileSystemDir.fname := "T1w.nii";
  FileSystemDir.dataset := study depth;
  FileSystemDir.subject_id := "sub-01";
  FileSystemDir.timepoint_id := "tp-1";
  FileSystemDir.tree_level := level;
  FileSystemDir.namespace := ns;
  FileSystemDir.derived := false
|}.

Definition empty_world : FileSystemDir.world :=
  FileSystemDir.World ∅ ∅ [].

Definition age : @FileSystemDir.Field string := {|
  FileSystemDir.f_item := scan "per_session" 2 None;
  FileSystemDir.f_name := "age";
  FileSystemDir.f_array := false;
  FileSystemDir.f_value := FileSystemDir.VInt 42;
  FileSystemDir.f_dtype := Ok
|}.

(** A file-group whose path was set before its file was written. *)
Definition unwritten : @FileSystemDir.FileGroup string := {|
  FileSystemDir.fg_item := scan "per_session" 2 None;
  FileSystemDir.fg_path := Some "/data/study/sub-01/tp-1/T1w.nii";
  FileSystemDir.aux_files := [];
  FileSystemDir.default_aux_file_paths := fun _ => []
|}.

Definition unlocated : @FileSystemDir.FileGroup string := {|
  FileSystemDir.fg_item := scan "per_session" 2 None;
  FileSystemDir.fg_path := None;
  FileSystemDir.aux_files := [];
  FileSystemDir.default_aux_file_paths := fun _ => []
|}.

(** *** A store with a session counter *)

#[global] Instance counting_backend : DataStore.Backend nat string := {|
  DataStore.connect := Datatypes.S;
  DataStore.disconnect := fun sessions => sessions;
  DataStore.serialise := fun _ => Ok "type: counting"
|}.

Definition builtin_stores : DataStore.registry nat string :=
  DataStore.Registry {[ "file" := 0%nat ]} None.

(** *** An XNAT project seen from a container *)

Inductive Clinical : Type :=
| dataset | group | subject | timepoint | session.

#[global] Instance Clinical_eq_dec : EqDecision Clinical.
Proof. solve_decision. Defined.

#[global] Instance Path_eq_dec : EqDecision XnatViaCS.Path.
Proof. solve_decision. Defined.

(** A world that is a table of directory listings; every write
    succeeds and is not recorded. *)
Definition listings : Type := list (XnatViaCS.Path * list XnatViaCS.Path).

Fixpoint listing (p : XnatViaCS.Path) (w : listings)
  : result (list XnatViaCS.Path) :=
  match w with
  | [] => Raise (IOError ENOENT)
  | (q, entries) :: rest => if decide (p = q) then Ok entries else listing p rest
  end.

#[global] Instance listings_os : XnatViaCS.OS listings := {|
  XnatViaCS.iterdir := fun p w => (listing p w, w);
  XnatViaCS.rmtree_ignore_errors := fun _ => mret tt;
  XnatViaCS.makedirs_exist_ok := fun _ => mret tt;
  XnatViaCS.symlink := fun _ _ => mret tt;
  XnatViaCS.copytree := fun _ _ => mret tt;
  XnatViaCS.copyfile := fun _ _ => mret tt
|}.

Definition session_store : @XnatViaCS.XnatViaCS Clinical := {|
  XnatViaCS.store_frequency := session;
  XnatViaCS.node_id := Some "E1";
  XnatViaCS.input_mount := XnatViaCS.INPUT_MOUNT;
  XnatViaCS.output_mount := XnatViaCS.OUTPUT_MOUNT
|}.

Definition session_node : @XnatViaCS.DataNode Clinical := {|
  XnatViaCS.frequency := session;
  XnatViaCS.id := "E1"
|}.

Definition scan_uri : string :=
  "/data/archive/projects/P1/subjects/S1/experiments/E1/scans/1/resources/NIFTI".

(** A scan that already has a URI on the server. *)
Definition remote_scan : @XnatViaCS.FileGroup Clinical :=
  XnatViaCS.MkFileGroup (Some scan_uri) "t1w" false session_node.

Definition archive : listings :=
  [(XnatViaCS.parse "/input/SCANS/1/NIFTI",
    [XnatViaCS.parse "/input/SCANS/1/NIFTI/t1w.nii"])].



Definition make_uri (node : @XnatViaCS.DataNode Clinical) : string :=
  "/data/archive/projects/P1/experiments/" +:+ XnatViaCS.id node.

Definition keep_stem (fg : @XnatViaCS.FileGroup Clinical)
  (fs_path stem : XnatViaCS.Path) : XnatViaCS.Path := stem.

(** *** A cache that disagrees with the remote store *)

Definition stale_cache : CacheManager.world :=
  CacheManager.World
    {[ "/cache/E1/t1w" :=
         CacheManager.CacheEntry ["/cache/E1/t1w/t1w.nii"]
           {[ "." := "0cc175b9c0f1b6a831c399e269772661" ]} ]}
    {[ "/cache/E1/t1w" :=
         CacheManager.RemoteItem ["t1w.nii"]
           {[ "." := "92eb5ffee6ae2fec3ad71c777531578f" ]} ]}
    [].

Definition stale_entry : CacheManager.cache_entry :=
  CacheManager.CacheEntry ["/cache/E1/t1w/t1w.nii"]
    {[ "." := "0cc175b9c0f1b6a831c399e269772661" ]}.

(** *** BIDS datasets *)

Definition arcana_generator : Bids.GeneratorMetadata := {|
  Bids.g_name := Bids.JStr "arcana";
  Bids.g_version := Bids.JStr "0.1";
  Bids.g_description :=
    Bids.JStr "Dataset was created programmatically from scratch";
  Bids.g_code_url := Bids.JStr "http://arcana.readthedocs.io";
  Bids.g_container := None
|}.

Definition described (type : string) : Bids.BidsDataset := {|
  Bids.name := Bids.JStr "bids-dataset";
  Bids.participants :=
    [("sub-1", [("group", "control")]); ("sub-2", [("group", "patient")])];
  Bids.acknowledgements := Bids.JStr "Generic BIDS dataset";
  Bids.authors :=
    Bids.JList [Bids.JStr "Dumm Y. Author"; Bids.JStr "Another D. Author"];
  Bids.bids_version := Bids.JStr "1.0.1";
  Bids.doi := Bids.JNull;
  Bids.funding := Bids.JList [];
  Bids.bids_type := Bids.JStr type;
  Bids.license := Bids.JStr "CC0";
  Bids.references := Bids.JList [];
  Bids.how_to_acknowledge := Bids.JStr "see licence";
  Bids.ethics_approvals := Bids.JList [];
  Bids.generated_by := [arcana_generator];
  Bids.sources := [];
  Bids.readme := Some "A dummy readme"
|}.


Definition empty_root : Bids.root_dir := Bids.RootDir None None None.

(** *** Further sample data *)

(** A derived scan, kept in the namespace of the pipeline that made it. *)
Definition preproc_scan : @FileSystemDir.Item string := {|
  FileSystemDir.fname := "T1w.nii";
  FileSystemDir.dataset := study 2;
  FileSystemDir.subject_id := "sub-01";
  FileSystemDir.timepoint_id := "tp-1";
  FileSystemDir.tree_level := "per_session";
  FileSystemDir.namespace := Some "preproc";
  FileSystemDir.derived := true
|}.

Definition weight : @FileSystemDir.Field string := {|
  FileSystemDir.f_item := scan "per_session" 2 None;
  FileSystemDir.f_name := "weight";
  FileSystemDir.f_array := false;
  FileSystemDir.f_value := FileSystemDir.VInt 70;
  FileSystemDir.f_dtype := Ok
|}.

(** A world in which the fields document of the session may not be
    read: [open] fails with [EACCES]. *)
Definition protected_world : FileSystemDir.world :=
  FileSystemDir.World ∅
    {[ "/data/study/sub-01/tp-1/fields.json" := FileSystemDir.FErr 13 ]} [].

(** The only class of store the saved entries name. *)
Definition counting_class (entry : string) : result nat :=
  if String.eqb entry "type: counting" then Ok 0%nat else Raise TypeError.

(** A participants table with one participant. *)
Definition one_participant : string :=
  "participant_id" +:+ String Bids.TAB "group" +:+ String Bids.LF
    ("sub-1" +:+ String Bids.TAB "control").

End Examples.

(** * Properties *)

(** ** Paths *)

Section PathFacts.


Lemma append_nil_l (s : string) : "" +:+ s = s.
Proof. reflexivity. Qed.

Lemma append_cons (c : ascii) (a b : string) :
  String c a +:+ b = String c (a +:+ b).
Proof. reflexivity. Qed.

Lemma append_empty_r (s : string) : s +:+ "" = s.
Proof.
  induction s as [|c s IH]; [done|]. by rewrite append_cons, IH.
Qed.

Lemma append_assoc (a b c : string) : (a +:+ b) +:+ c = a +:+ (b +:+ c).
Proof.
  induction a as [|x a IH]; [done|]. by rewrite !append_cons, IH.
Qed.

Lemma append_eq_empty (a b : string) : a +:+ b = "" → a = "" ∧ b = "".
Proof. destruct a; [done|]. rewrite append_cons. discriminate. Qed.

Lemma eqb_false_of_ne (a b : string) : a ≠ b → String.eqb a b = false.
Proof. intros H. by apply String.eqb_neq. Qed.

(** Only the last character decides whether a non-empty string ends in a
    separator. *)
Lemma endswith_sep_app (a b : string) :
  b ≠ "" → Py.endswith (a +:+ b) "/" = Py.endswith b "/".
Proof.
  intros Hb. induction a as [|c a IH]; [done|].
  rewrite append_cons. cbn [Py.endswith]. rewrite IH.
  replace (String.eqb (String c (a +:+ b)) "/") with false; [done|].
  symmetry. apply eqb_false_of_ne. intros [= _ H].
  by apply append_eq_empty in H as [_ ?].
Qed.

Lemma truthy_str_ne (s : string) : Py.truthy_str s = true → s ≠ "".
Proof.
  unfold Py.truthy_str. intros H ->. by rewrite String.eqb_refl in H.
Qed.

(** [join] on well-behaved names is concatenation with a separator. *)
Lemma join2_plain (a b : string) :
  Py.open_ended a = true → Py.relative b = true →
  Py.join2 a b = a +:+ "/" +:+ b.
Proof.
  unfold Py.open_ended, Py.relative, Py.join2.
  intros [Ha1 Ha2]%andb_true_iff Hb.
  apply negb_true_iff in Ha2, Hb. rewrite Hb, Ha2.
  apply truthy_str_ne, eqb_false_of_ne in Ha1. by rewrite Ha1.
Qed.


Lemma plain_relative (s : string) : Py.plain_name s = true → Py.relative s = true.
Proof. unfold Py.plain_name. by intros [? ?]%andb_true_iff. Qed.

Lemma plain_open_ended (s : string) :
  Py.plain_name s = true → Py.open_ended s = true.
Proof. unfold Py.plain_name. by intros [? ?]%andb_true_iff. Qed.

End PathFacts.

(** ** The plain file-system repository *)

Section FileSystemDirFacts.

Import FileSystemDir.

Context {Id : Type} (str : Id → string).

Abbreviation Item := (@FileSystemDir.Item Id).
Abbreviation Dataset := (@FileSystemDir.Dataset Id).

(** How [file_group_path] runs, by the outcome of its two stages. *)
Lemma file_group_path_level_error item ds fn w e :
  let d := default (dataset item) ds in
  level_dirs str item (ds_depth d)
    (inv_map_subject_id d (subject_id item))
    (inv_map_timepoint_id d (timepoint_id item)) = Raise e →
  file_group_path str item ds fn w = (Raise e, w).
Proof.
  intros d H. unfold file_group_path, mbind, ST_mbind, st_bind, st_lift.
  fold d. by rewrite H.
Qed.

Lemma file_group_path_acq_error item ds fn w sd td e :
  let d := default (dataset item) ds in
  level_dirs str item (ds_depth d)
    (inv_map_subject_id d (subject_id item))
    (inv_map_timepoint_id d (timepoint_id item)) = Ok (sd, td) →
  acq_dir (ds_name d) (ds_depth d) sd td = Raise e →
  file_group_path str item ds fn w = (Raise e, w).
Proof.
  intros d H1 H2. unfold file_group_path, mbind, ST_mbind, st_bind, st_lift.
  fold d. rewrite H1. cbn [fst snd]. by rewrite H2.
Qed.

Lemma file_group_path_ok item ds fn w sd td acq :
  let d := default (dataset item) ds in
  level_dirs str item (ds_depth d)
    (inv_map_subject_id d (subject_id item))
    (inv_map_timepoint_id d (timepoint_id item)) = Ok (sd, td) →
  acq_dir (ds_name d) (ds_depth d) sd td = Ok acq →
  ∃ w',
    file_group_path str item ds fn w
    = (Ok (Py.join (sess_dir_of item acq) [default (fname item) fn]), w')
    ∧ files w' = files w
    ∧ (derived item = false → w' = w).
Proof.
  intros d H1 H2. unfold file_group_path, mbind, ST_mbind, st_bind, st_lift.
  fold d. rewrite H1. cbn [fst snd]. rewrite H2.
  destruct (derived item); cbn [andb].
  - destruct (negb (op_exists (sess_dir_of item acq) w)); cbn.
    + eexists; split; [reflexivity|]. by split.
    + eexists; split; [reflexivity|]. by split.
  - eexists; split; [reflexivity|]. by split.
Qed.

(** The frequencies exclude one another. *)
Lemma startswith_app (t p : string) :
  Py.startswith t p = true → ∃ r, t = p +:+ r.
Proof.
  unfold Py.startswith. revert t.
  induction p as [|a p IH]; intros t H; [by exists t|].
  destruct t as [|b t]; [discriminate|].
  cbn [String.prefix] in H. destruct (ascii_dec a b) as [<-|]; [|discriminate].
  destruct (IH _ H) as [r ->]. by exists r.
Qed.


Lemma per_timepoint_not_dataset (t : string) :
  Py.startswith t "per_timepoint" = true → String.eqb t "per_dataset" = false.
Proof. by intros [r ->]%startswith_app. Qed.


Lemma per_session_not_others (t : string) :
  Py.startswith t "per_session" = true →
  String.eqb t "per_dataset" = false
  ∧ Py.startswith t "per_subject" = false
  ∧ Py.startswith t "per_timepoint" = false.
Proof. by intros [r ->]%startswith_app. Qed.



Lemma join_app (a : string) (p q : list string) :
  Py.join (Py.join a p) q = Py.join a (p ++ q).
Proof. unfold Py.join. by rewrite fold_left_app. Qed.

(** The path of an item in a repository of depth 2, by the two directory
    names its frequency selects. *)
Lemma file_group_path_depth_2_dirs (item : Item) (w : world) (sd td : string) :
  let d := dataset item in
  ds_depth d = 2%Z →
  level_dirs str item 2
    (inv_map_subject_id d (subject_id item))
    (inv_map_timepoint_id d (timepoint_id item)) = Ok (sd, td) →
  (file_group_path str item None None w).1
  = Ok (Py.join (ds_name d) ([sd; td] ++ below item)).
Proof.
  intros d Hdepth Hlevel.
  destruct (file_group_path_ok item None None w sd td
              (Py.join (ds_name d) [sd; td])) as (w' & -> & _).
  - cbn [default]. fold d. by rewrite Hdepth.
  - cbn [default]. fold d. by rewrite Hdepth.
  - cbn [fst default]. f_equal. unfold sess_dir_of, below.
    destruct (namespace item) as [ns|]; by rewrite !join_app.
Qed.


Lemma file_group_path_outcome item ds fn w :
  (file_group_path str item ds fn w).1 = path_outcome str item ds fn.
Proof.
  unfold path_outcome.
  destruct (level_dirs _ _ _ _ _) as [[sd td]|e] eqn:H1.
  - destruct (acq_dir _ _ _ _) as [acq|e] eqn:H2.
    + by destruct (file_group_path_ok item ds fn w sd td acq H1 H2)
        as (w' & -> & _).
    + by rewrite (file_group_path_acq_error item ds fn w sd td e H1 H2).
  - by rewrite (file_group_path_level_error item ds fn w e H1).
Qed.


(** Path resolution leaves every file as it is, and leaves the world
    alone unless the item is derived. *)
Lemma file_group_path_frame item ds fn w r w1 :
  file_group_path str item ds fn w = (r, w1) →
  files w1 = files w ∧ (derived item = false → w1 = w).
Proof.
  intros H. set (d := default (dataset item) ds).
  destruct (level_dirs str item (ds_depth d)
              (inv_map_subject_id d (subject_id item))
              (inv_map_timepoint_id d (timepoint_id item)))
    as [[sd td]|e] eqn:H1.
  - destruct (acq_dir (ds_name d) (ds_depth d) sd td) as [acq|e] eqn:H2.
    + destruct (file_group_path_ok item ds fn w sd td acq H1 H2)
        as (w' & Hw & ? & ?).
      rewrite Hw in H. by simplify_eq.
    + rewrite (file_group_path_acq_error item ds fn w sd td e H1 H2) in H.
      by simplify_eq.
  - rewrite (file_group_path_level_error item ds fn w e H1) in H.
    by simplify_eq.
Qed.

Lemma check_aux_files_missing (aux : list (string * string)) w :
  (∃ aux_name aux_path,
      (aux_name, aux_path) ∈ aux ∧ op_exists aux_path w = false) →
  check_aux_files aux w = (Raise ArcanaMissingDataException, w).
Proof.
  intros (n & p & Hin & Hp).
  induction aux as [|[n' p'] aux IH]; [by apply elem_of_nil in Hin|].
  cbn [check_aux_files].
  apply elem_of_cons in Hin as [[= <- <-]|Hin]; [by rewrite Hp|].
  destruct (op_exists p' w); auto.
Qed.

Lemma check_aux_files_present (aux : list (string * string)) w :
  (∀ aux_name aux_path,
      (aux_name, aux_path) ∈ aux → op_exists aux_path w = true) →
  check_aux_files aux w = (Ok tt, w).
Proof.
  induction aux as [|[n' p'] aux IH]; intros H; [done|].
  cbn [check_aux_files]. rewrite (H n' p') by (apply elem_of_cons; by left).
  apply IH. intros n p Hin. apply (H n p). apply elem_of_cons; by right.
Qed.

(** C7, as the code has it. [get_field] raises the missing-data error
    when the fields document of the node does not exist or lacks the name
    of the field. [get_file_group] raises it when the path of the
    file-group is not yet set and the primary file or one of its side
    cars does not exist; a file-group whose path is already set gets that
    path and its side cars back without a look at the disk. *)
Theorem missing_data_errors (w : world) :
  (∀ (field : Field) fpath w1,
      fields_json_path str (f_item field) None w = (Ok fpath, w1) →
      (files w !! fpath = None
       ∨ ∃ dct, files w !! fpath = Some (FJson dct)
                ∧ dct !! f_name field = None) →
      (get_field str field w).1 = Raise ArcanaMissingDataException)
  ∧ (∀ (file_group : FileGroup) primary_path w1,
      fg_path file_group = None →
      file_group_path str (fg_item file_group) None None w
      = (Ok primary_path, w1) →
      (op_exists primary_path w1 = false
       ∨ ∃ aux_name aux_path,
           (aux_name, aux_path)
             ∈ default_aux_file_paths file_group primary_path
           ∧ op_exists aux_path w1 = false) →
      (get_file_group str file_group w).1 = Raise ArcanaMissingDataException)
  ∧ (∀ (file_group : FileGroup) p,
      fg_path file_group = Some p →
      get_file_group str file_group w = (Ok (p, aux_files file_group), w)).
Proof.
  split; [|split].
  - intros field fpath w1 Hpath Hmiss.
    destruct (file_group_path_frame _ _ _ _ _ _ Hpath) as [Hfiles _].
    unfold get_field, mbind, ST_mbind, st_bind. rewrite Hpath.
    unfold try_missing_data, with_lock, emit, read_json. cbn [files].
    rewrite Hfiles.
    destruct Hmiss as [-> | (dct & -> & Hname)]; [done|].
    cbn. unfold st_lift. by rewrite Hname.
  - intros fg p w1 Hnone Hpath Hmiss.
    unfold get_file_group. rewrite Hnone.
    unfold mbind, ST_mbind, st_bind. rewrite Hpath.
    destruct (op_exists p w1) eqn:Hp; [|done].
    destruct Hmiss as [? | Haux]; [done|].
    by rewrite (check_aux_files_missing _ _ Haux).
  - intros fg p Hp. unfold get_file_group. by rewrite Hp.
Qed.




End FileSystemDirFacts.

(** ** The abstract data store *)

Section DataStoreFacts.

Import DataStore.

Context {S E : Type} `{!Backend S E}.

Lemma acquire_S (self : store S) (n : nat) :
  acquire (Datatypes.S n) self = __enter__ (acquire n self).
Proof. reflexivity. Qed.

Lemma release_S (self : store S) (n : nat) :
  release (Datatypes.S n) self = __exit__ (release n self).
Proof. reflexivity. Qed.

Lemma acquire_from_closed (self : store S) (n : nat) :
  _connection_depth self = 0 → (1 ≤ n)%nat →
  acquire n self
  = Store (connect (backend self)) (Z.of_nat n) (calls self ++ [Connect]).
Proof.
  intros Hd Hn. induction n as [|n IH]; [lia|].
  rewrite acquire_S. destruct n as [|n].
  - unfold __enter__. change (acquire 0 self) with self. by rewrite Hd.
  - rewrite IH by lia.
    unfold __enter__. cbn [_connection_depth backend calls].
    destruct (Z.eqb_spec (Z.of_nat (Datatypes.S n)) 0); [lia|].
    cbn [_connection_depth backend calls]. f_equal. lia.
Qed.

Lemma release_inner (self : store S) (j : nat) :
  (Z.of_nat j < _connection_depth self) →
  release j self
  = Store (backend self) (_connection_depth self - Z.of_nat j) (calls self).
Proof.
  intros Hj. induction j as [|j IH].
  - destruct self. change (release 0 ?x) with x. cbn. f_equal. lia.
  - rewrite release_S, IH by lia.
    unfold __exit__. cbn [_connection_depth backend calls].
    destruct (Z.eqb_spec (_connection_depth self - Z.of_nat j - 1) 0); [lia|].
    f_equal. lia.
Qed.

Lemma release_outermost (self : store S) (n : nat) :
  (1 ≤ n)%nat → _connection_depth self = Z.of_nat n →
  release n self
  = Store (disconnect (backend self)) 0 (calls self ++ [Disconnect]).
Proof.
  intros Hn Hd. destruct n as [|n]; [lia|].
  rewrite release_S, release_inner by lia.
  unfold __exit__. cbn [_connection_depth backend calls].
  destruct (Z.eqb_spec (_connection_depth self - Z.of_nat n - 1) 0); [|lia].
  f_equal. lia.
Qed.

(** C2. From a store that holds no connection, [n] nested acquisitions
    followed by [n] releases, for any [n] of at least 1, call [connect]
    once, on the first acquisition, and [disconnect] once, on the last
    release; the acquisitions and releases in between call neither. *)
Theorem connection_reentrancy (self : store S) (n : nat) :
  _connection_depth self = 0 →
  (1 ≤ n)%nat →
  let opened := acquire n self in
  (∀ k, (1 ≤ k ≤ n)%nat → calls (acquire k self) = calls self ++ [Connect])
  ∧ (∀ j, (j < n)%nat → calls (release j opened) = calls self ++ [Connect])
  ∧ calls (release n opened) = calls self ++ [Connect; Disconnect]
  ∧ backend (release n opened) = disconnect (connect (backend self))
  ∧ _connection_depth (release n opened) = 0.
Proof.
  intros Hd Hn opened. subst opened.
  rewrite (acquire_from_closed self n Hd Hn).
  split; [|split].
  - intros k [Hk _]. by rewrite (acquire_from_closed self k Hd Hk).
  - intros j Hj. rewrite release_inner; [done|]. cbn. lia.
  - rewrite (release_outermost _ n) by done.
    cbn [calls backend _connection_depth]. by rewrite <- app_assoc.
Qed.

(** C5. Saving a store under a name that is the alias of a built-in
    store raises the name error that carries the name and leaves the
    store and the saved configurations as they were; under any other
    name the serialised configuration is entered in the saved
    configurations under that name, the other entries being kept. *)
Theorem save_name_collision (name : string) (self : store S)
  (r : registry S E) :
  (is_Some (singletons r !! name) →
   save name self r = (Raise (ArcanaNameError name), self, r))
  ∧ (singletons r !! name = None →
     ∀ e, serialise (backend (__enter__ self)) = Ok e →
     ∃ self' r',
       save name self r = (Ok tt, self', r')
       ∧ singletons r' = singletons r
       ∧ load_saved_entries r' !! name = Some e
       ∧ ∀ other, other ≠ name →
           load_saved_entries r' !! other = load_saved_entries r !! other).
Proof.
  split.
  - intros Hin. unfold save. by rewrite bool_decide_eq_true_2.
  - intros Hnone e He. unfold save.
    rewrite bool_decide_eq_false_2 by (rewrite Hnone; by intros [? ?]).
    rewrite He. eexists _, _. split; [reflexivity|].
    split; [done|]. unfold save_entries.
    split; [apply lookup_insert_eq|].
    intros other Hne. by apply lookup_insert_ne.
Qed.

End DataStoreFacts.

(** ** The XNAT store reached through the container service *)

Section XnatViaCSFacts.

Import XnatViaCS.

Context {Freq : Type} `{!EqDecision Freq}.
Context (Clinical_dataset Clinical_session : Freq).
Context {W : Type} `{!OS W}.
Context (Xnat_get_file_group : @FileGroup Freq → ST W (list Path)).
Context (cache_path : @FileGroup Freq → Path).
Context (_make_uri : @DataNode Freq → string).
Context (copy_ext : @FileGroup Freq → Path → Path → Path).

Abbreviation get_paths :=
  (get_file_group_paths Clinical_dataset Clinical_session
     Xnat_get_file_group cache_path).
Abbreviation put_paths := (put_file_group_paths _make_uri copy_ext).



(** The file-group as [put_file_group_paths] leaves it. *)
Lemma put_file_group_paths_inv (self : XnatViaCS) (file_group : FileGroup)
  (fs_paths : list Path) (w : W) paths file_group' w' :
  put_paths self file_group fs_paths w = (Ok (paths, file_group'), w') →
  file_group'
  = MkFileGroup
      (Some (_make_uri (data_node file_group) +:+ "/RESOURCES/"
               +:+ path file_group))
      (path file_group) (is_dir file_group) (data_node file_group).
Proof.
  unfold put_file_group_paths, mbind, ST_mbind, st_bind, mret, ST_ret, st_ret.
  destruct (makedirs_exist_ok _ w) as [[[]|?] w1]; [|discriminate].
  destruct (copy_all _ _ _ _ w1) as [[ps|?] w2]; [|discriminate].
  by intros [= _ <- _].
Qed.

(** C9, as the code has it. [put_file_group_paths] gives the file-group
    the URI made from its node and its path, whether or not it had a URI
    before, and leaves its path alone; the call succeeds when the copies
    do, and a second call assigns the same URI again. *)
Theorem put_file_group_paths_uri (self : XnatViaCS) (file_group : FileGroup)
  (fs_paths : list Path) (w w1 w2 : W) (targets : list Path) :
  let stem_path := file_group_stem_path self file_group in
  let new_uri :=
    _make_uri (data_node file_group) +:+ "/RESOURCES/" +:+ path file_group in
  makedirs_exist_ok (parent stem_path) w = (Ok tt, w1) →
  copy_all copy_ext file_group stem_path fs_paths w1 = (Ok targets, w2) →
  ∃ file_group',
    put_paths self file_group fs_paths w = (Ok (targets, file_group'), w2)
    ∧ uri file_group' = Some new_uri
    ∧ path file_group' = path file_group
    ∧ data_node file_group' = data_node file_group
    ∧ ∀ fs_paths' w3 w4 targets' file_group'',
        put_paths self file_group' fs_paths' w3
        = (Ok (targets', file_group''), w4) →
        uri file_group'' = Some new_uri ∧ path file_group'' = path file_group.
Proof.
  intros stem_path new_uri Hmk Hcp. eexists. split.
  - unfold put_file_group_paths, mbind, ST_mbind, st_bind, mret, ST_ret, st_ret.
    fold stem_path. rewrite Hmk, Hcp. reflexivity.
  - cbn [uri path data_node]. split; [done|]. split; [done|]. split; [done|].
    intros fs_paths' w3 w4 targets' fg'' Hput.
    apply put_file_group_paths_inv in Hput. rewrite Hput.
    by cbn [uri path data_node].
Qed.

End XnatViaCSFacts.

(** ** The local cache *)

Section CacheManagerFacts.

Import CacheManager.

(** C3. When a file-group has a cached copy whose checksums differ from
    those of the remote store, [get_file_group_paths] with [cache_only]
    set raises the cache error: no path is returned, nothing is
    downloaded, and the cache is left as it was. *)
Theorem cache_only_checksum_gate (cache_dir : string) (w : world)
  (entry : cache_entry) :
  cache w !! cache_dir = Some entry →
  Some (cached_checksums entry) ≠ remote_checksums <$> remote w !! cache_dir →
  get_file_group_paths cache_dir true w = (Raise ArcanaCacheError, w)
  ∧ downloads (get_file_group_paths cache_dir true w).2 = downloads w
  ∧ cache (get_file_group_paths cache_dir true w).2 = cache w.
Proof.
  intros Hc Hne.
  assert (get_file_group_paths cache_dir true w = (Raise ArcanaCacheError, w))
    as ->; [|done].
  unfold get_file_group_paths. rewrite Hc.
  by rewrite bool_decide_eq_false_2.
Qed.

End CacheManagerFacts.

(** ** BIDS metadata *)

Section BidsFacts.

Import Bids.

Lemma lookup_set_if_truthy_ne k k' v (m : gmap string json) :
  k' ≠ k → set_if_truthy k' v m !! k = m !! k.
Proof.
  intros Hne. unfold set_if_truthy. destruct (truthy v); [|done].
  by rewrite lookup_insert_ne.
Qed.

Lemma lookup_set_if_truthy_eq k v (m : gmap string json) :
  set_if_truthy k v m !! k = if truthy v then Some v else m !! k.
Proof.
  unfold set_if_truthy. destruct (truthy v); [|done].
  by rewrite lookup_insert_eq.
Qed.

Lemma optional_get (j : json) :
  optional j → default JNull (if truthy j then Some j else None) = j.
Proof. intros [-> | ->]; done. Qed.


(** Rewriting a lookup in a dictionary built key by key. *)
Ltac lookup_built :=
  repeat first
    [ rewrite lookup_set_if_truthy_ne by done
    | rewrite lookup_insert_ne by done
    | rewrite lookup_set_if_truthy_eq
    | rewrite lookup_insert_eq
    | rewrite lookup_empty ].

Lemma container_round_trip (c : ContainerMetadata) :
  container_ok c →
  container_from_dict (JDict (container_to_dict c)) = Ok (Some c).
Proof.
  intros (Ht & Hg & Hu). destruct c as [t g u]; cbn [c_type c_tag c_uri] in *.
  unfold container_from_dict, container_to_dict, get.
  cbn [mbind result_mbind result_bind c_type c_tag c_uri].
  lookup_built. by rewrite !optional_get.
Qed.

Lemma generator_round_trip (g : GeneratorMetadata) :
  generator_ok g →
  generator_from_dict (JDict (generator_to_dict g)) = Ok g.
Proof.
  intros (Hv & Hd & Hc & Hcont).
  destruct g as [n v d u c];
    cbn [g_name g_version g_description g_code_url g_container] in *.
  unfold generator_from_dict, generator_to_dict, get, item.
  cbn [g_name g_version g_description g_code_url g_container].
  destruct c as [c|]; cbn [mbind result_mbind result_bind].
  - lookup_built. cbn [default from_option id result_bind].
    rewrite !optional_get by done.
    change (default JNull (Some ?x)) with x.
    rewrite (container_round_trip c Hcont). done.
  - lookup_built. cbn [result_bind]. by rewrite !optional_get.
Qed.

Lemma source_round_trip (s : SourceDatasetMetadata) :
  source_ok (Some s) →
  source_from_dict (JDict (source_to_dict s)) = Ok (Some s).
Proof.
  intros (Hu & Hd & Hv). destruct s as [u d v]; cbn [s_url s_doi s_version] in *.
  unfold source_from_dict, source_to_dict, get.
  cbn [mbind result_mbind result_bind s_url s_doi s_version].
  lookup_built. by rewrite !optional_get.
Qed.



(** *** Strings *)




Lemma split_avoids (c : ascii) (s : string) :
  avoids c s = true → Py.split c s = [s].
Proof.
  induction s as [|x s IH]; [done|]. cbn [avoids Py.split].
  intros [Hx Hs]%andb_true_iff. apply negb_true_iff in Hx.
  by rewrite Hx, IH.
Qed.


Lemma str_join_cons (sep x y : string) (rest : list string) :
  Py.str_join sep (x :: y :: rest)
  = x +:+ sep +:+ Py.str_join sep (y :: rest).
Proof. reflexivity. Qed.








(** *** Ordered dictionaries *)






(** *** The participants table *)









(** *** The description and the round trip *)



End BidsFacts.

(** ** Worked cases *)




(** A file-group whose path is set is returned although nothing exists at
    that path. *)
Lemma get_file_group_unwritten :
  FileSystemDir.op_exists "/data/study/sub-01/tp-1/T1w.nii"
    Examples.empty_world = false
  ∧ FileSystemDir.get_file_group id Examples.unwritten Examples.empty_world
    = (Ok ("/data/study/sub-01/tp-1/T1w.nii", []), Examples.empty_world).
Proof. split; [by vm_compute | reflexivity]. Qed.

(** In an empty world a field and a file-group without a path are both
    reported missing. *)
Lemma missing_data_errors_witness :
  (FileSystemDir.get_field id Examples.age Examples.empty_world).1
  = Raise ArcanaMissingDataException
  ∧ (FileSystemDir.get_file_group id Examples.unlocated
       Examples.empty_world).1
    = Raise ArcanaMissingDataException.
Proof.
  destruct (missing_data_errors id Examples.empty_world) as (Hfield & Hgroup & _).
  split.
  - apply (Hfield Examples.age "/data/study/sub-01/tp-1/fields.json"
             Examples.empty_world); [reflexivity|]. by left.
  - apply (Hgroup Examples.unlocated "/data/study/sub-01/tp-1/T1w.nii"
             Examples.empty_world); [reflexivity | reflexivity |].
    left. by vm_compute.
Defined.


(** Three nested acquisitions make one connection and close it once. *)
Lemma connection_reentrancy_witness :
  DataStore.calls
    (DataStore.release 3 (DataStore.acquire 3 (DataStore.new_store 0%nat)))
  = [DataStore.Connect; DataStore.Disconnect].
Proof.
  refine (proj1 (proj2 (proj2
            (connection_reentrancy (DataStore.new_store 0%nat) 3 eq_refl _)))).
  lia.
Defined.

(** The alias [file] is refused; the name [my-xnat] is saved. *)
Lemma save_name_collision_witness :
  DataStore.save "file" (DataStore.new_store 0%nat) Examples.builtin_stores
  = (Raise (ArcanaNameError "file"), DataStore.new_store 0%nat,
     Examples.builtin_stores)
  ∧ ∃ self' r',
      DataStore.save "my-xnat" (DataStore.new_store 0%nat)
        Examples.builtin_stores = (Ok tt, self', r')
      ∧ DataStore.load_saved_entries r' !! "my-xnat" = Some "type: counting".
Proof.
  split.
  - apply (proj1 (save_name_collision "file" (DataStore.new_store 0%nat)
                    Examples.builtin_stores)).
    exists 0%nat. reflexivity.
  - destruct (proj2 (save_name_collision "my-xnat" (DataStore.new_store 0%nat)
                       Examples.builtin_stores) eq_refl "type: counting")
      as (self' & r' & Hsave & _ & Hentry & _); [reflexivity|].
    by exists self', r'.
Defined.


(** Putting a scan that already has a URI replaces that URI. *)
Lemma put_file_group_paths_replaces_uri :
  XnatViaCS.uri Examples.remote_scan = Some Examples.scan_uri
  ∧ ∃ targets file_group',
      XnatViaCS.put_file_group_paths Examples.make_uri Examples.keep_stem
        Examples.session_store Examples.remote_scan
        [XnatViaCS.parse "/work/t1w.nii"] Examples.archive
      = (Ok (targets, file_group'), Examples.archive)
      ∧ XnatViaCS.uri file_group'
        = Some "/data/archive/projects/P1/experiments/E1/RESOURCES/t1w"
      ∧ XnatViaCS.uri file_group' ≠ XnatViaCS.uri Examples.remote_scan.
Proof.
  split; [reflexivity|]. eexists _, _.
  split; [reflexivity|]. split; [reflexivity | discriminate].
Qed.

(** The URI a put assigns is the one made from the node and the path. *)
Lemma put_file_group_paths_uri_witness :
  ∃ file_group',
    XnatViaCS.put_file_group_paths Examples.make_uri Examples.keep_stem
      Examples.session_store Examples.remote_scan
      [XnatViaCS.parse "/work/t1w.nii"] Examples.archive
    = (Ok ([XnatViaCS.parse "/output/t1w"], file_group'), Examples.archive)
    ∧ XnatViaCS.uri file_group'
      = Some "/data/archive/projects/P1/experiments/E1/RESOURCES/t1w"
    ∧ XnatViaCS.path file_group' = "t1w".
Proof.
  destruct (put_file_group_paths_uri Examples.make_uri Examples.keep_stem
              Examples.session_store Examples.remote_scan
              [XnatViaCS.parse "/work/t1w.nii"]
              Examples.archive Examples.archive Examples.archive
              [XnatViaCS.parse "/output/t1w"])
    as (fg' & Hput & Huri & Hpath & _); [reflexivity | reflexivity |].
  by exists fg'.
Defined.

(** A stale cached copy is refused under [cache_only]. *)
Lemma cache_only_checksum_gate_witness :
  CacheManager.get_file_group_paths "/cache/E1/t1w" true Examples.stale_cache
  = (Raise ArcanaCacheError, Examples.stale_cache).
Proof.
  apply (cache_only_checksum_gate "/cache/E1/t1w" Examples.stale_cache
           Examples.stale_entry); [reflexivity|].
  intros H.
  apply (f_equal (fun o : option (gmap string string) =>
                    o ≫= fun m => m !! ".")) in H.
  vm_compute in H. discriminate H.
Defined.



(** * Further properties *)

(** ** Names of items in a BIDS tree *)

Section NameFacts.

Import Bids.

Lemma prefix_cons (a b : ascii) (p s : string) :
  String.prefix (String a p) (String b s)
  = Ascii.eqb a b && String.prefix p s.
Proof.
  simpl. destruct (ascii_dec a b) as [->|Hne].
  - by rewrite Ascii.eqb_refl.
  - by apply Ascii.eqb_neq in Hne as ->.
Qed.

Lemma split_nonempty (c : ascii) (s : string) : Py.split c s ≠ [].
Proof.
  destruct s as [|a r]; simpl; [done|].
  destruct (Ascii.eqb a c); [done|]. by destruct (Py.split c r).
Qed.

Lemma split_from_0_cons (sep : string) (c : ascii) (r : string) :
  Py.split_from sep 0 (String c r)
  = if String.prefix sep (String c r)
    then "" :: Py.split_from sep (String.length sep - 1) r
    else match Py.split_from sep 0 r with
         | [] => [String c ""]
         | h :: t => String c h :: t
         end.
Proof. reflexivity. Qed.

Lemma split_from_S_cons (sep : string) (k : nat) (c : ascii) (r : string) :
  Py.split_from sep (Datatypes.S k) (String c r) = Py.split_from sep k r.
Proof. reflexivity. Qed.

Lemma split_from_nonempty (sep : string) (k : nat) (s : string) :
  Py.split_from sep k s ≠ [].
Proof.
  revert k. induction s as [|a r IH]; intros k; [done|].
  destruct k; [|apply IH].
  rewrite split_from_0_cons.
  destruct (String.prefix sep (String a r)); [done|].
  by destruct (Py.split_from sep 0 r).
Qed.

Lemma str_join_nil_cons (sep : string) (l : list string) :
  l ≠ [] → Py.str_join sep ("" :: l) = sep +:+ Py.str_join sep l.
Proof. destruct l; [done|]. intros _. by rewrite str_join_cons, append_nil_l. Qed.

Lemma str_join_push (sep : string) (c : ascii) (h : string) (t : list string) :
  Py.str_join sep (String c h :: t) = String c (Py.str_join sep (h :: t)).
Proof.
  destruct t as [|y t]; [done|].
  by rewrite !str_join_cons, append_cons.
Qed.

(** Escaping works character by character. *)
Lemma escape_name_cons (c : ascii) (r : string) :
  escape_name (String c r)
  = if Ascii.eqb c "/" then PATH_SEP +:+ escape_name r
    else String c (escape_name r).
Proof.
  unfold escape_name. simpl Py.split.
  destruct (Ascii.eqb c "/").
  - apply str_join_nil_cons, split_nonempty.
  - pose proof (split_nonempty "/" r).
    destruct (Py.split "/" r) as [|h t]; [done|]. apply str_join_push.
Qed.

Lemma unescape_name_cons (c : ascii) (r : string) :
  String.prefix PATH_SEP (String c r) = false →
  unescape_name (String c r) = String c (unescape_name r).
Proof.
  unfold unescape_name, Py.split_str. intros Hp.
  rewrite split_from_0_cons, Hp.
  pose proof (split_from_nonempty PATH_SEP 0 r).
  destruct (Py.split_from PATH_SEP 0 r) as [|h t]; [done|]. apply str_join_push.
Qed.

Lemma prefix_refl_app (p r : string) : String.prefix p (p +:+ r) = true.
Proof.
  induction p as [|a p IH]; [by destruct r|].
  by rewrite append_cons, prefix_cons, Ascii.eqb_refl.
Qed.

Lemma unescape_name_sep (r : string) :
  unescape_name (PATH_SEP +:+ r) = String "/" (unescape_name r).
Proof.
  unfold unescape_name, Py.split_str.
  pose proof (prefix_refl_app PATH_SEP r) as Hp.
  unfold PATH_SEP in *. rewrite !append_cons, append_nil_l in *.
  rewrite split_from_0_cons, Hp.
  change (String.length "__l__" - 1)%nat with 4%nat.
  rewrite !split_from_S_cons.
  rewrite str_join_nil_cons by apply split_from_nonempty.
  by rewrite append_cons, append_nil_l.
Qed.

Lemma contains_cons (sub : string) (c : ascii) (r : string) :
  Py.contains sub (String c r) = false →
  String.prefix sub (String c r) = false ∧ Py.contains sub r = false.
Proof. simpl. by intros [? ?]%orb_false_elim. Qed.

(** X1. A path in which no two underscores follow one another is
    recovered from its escaped name. *)
Theorem unescape_escape_name (path : string) :
  Py.contains "__" path = false →
  unescape_name (escape_name path) = path.
Proof.
  induction path as [|c r IH]; intros Hc; [done|].
  apply contains_cons in Hc as [Hp Hr]. specialize (IH Hr).
  rewrite escape_name_cons.
  destruct (Ascii.eqb c "/") eqn:Hslash.
  - apply Ascii.eqb_eq in Hslash as ->.
    by rewrite unescape_name_sep, IH.
  - rewrite unescape_name_cons, IH; [done|].
    unfold PATH_SEP. rewrite prefix_cons.
    destruct (Ascii.eqb "_" c) eqn:Hu; [|done].
    apply Ascii.eqb_eq in Hu as <-. simpl andb.
    destruct r as [|c2 r2]; [done|].
    assert (Ascii.eqb "_" c2 = false) as Hc2.
    { rewrite !prefix_cons, Ascii.eqb_refl in Hp.
      destruct (Ascii.eqb "_" c2); [by destruct r2|done]. }
    rewrite escape_name_cons.
    destruct (Ascii.eqb c2 "/") eqn:H2.
    + unfold PATH_SEP. by rewrite !append_cons, !prefix_cons.
    + by rewrite prefix_cons, Hc2.
Qed.

Lemma avoids_escape_name (path : string) : avoids "/" (escape_name path) = true.
Proof.
  induction path as [|c r IH]; [done|].
  rewrite escape_name_cons. destruct (Ascii.eqb c "/") eqn:Hc.
  - unfold PATH_SEP. by rewrite !append_cons, append_nil_l.
  - simpl. by rewrite Hc, IH.
Qed.

Lemma escape_unescape_fuel (n : nat) (name : string) :
  (String.length name ≤ n)%nat →
  avoids "/" name = true →
  escape_name (unescape_name name) = name.
Proof.
  revert name. induction n as [|n IH]; intros name Hlen Hs.
  { by destruct name; [|simpl in Hlen; lia]. }
  destruct name as [|c r]; [done|].
  destruct (String.prefix PATH_SEP (String c r)) eqn:Hp.
  - apply startswith_app in Hp as [r' Hr']. rewrite Hr' in *.
    rewrite unescape_name_sep, escape_name_cons. simpl Ascii.eqb. cbv iota.
    rewrite IH; [done| |].
    + unfold PATH_SEP in Hlen. rewrite !append_cons, append_nil_l in Hlen.
      simpl in Hlen. lia.
    + unfold PATH_SEP in Hs. rewrite !append_cons, append_nil_l in Hs.
      simpl in Hs. exact Hs.
  - simpl in Hs. apply andb_true_iff in Hs as [Hc Hs].
    apply negb_true_iff in Hc.
    rewrite unescape_name_cons by done.
    rewrite escape_name_cons, Hc, IH; [done| |done].
    simpl in Hlen. lia.
Qed.

(** X2. An escaped name holds no slash, and a name that holds no slash is
    recovered from the path it unescapes to. *)
Theorem escape_unescape_name :
  (∀ path, avoids "/" (escape_name path) = true)
  ∧ (∀ name, avoids "/" name = true →
       escape_name (unescape_name name) = name).
Proof.
  split; [apply avoids_escape_name|].
  intros name. by apply (escape_unescape_fuel (String.length name)).
Qed.

Lemma strip_non_alnum_no_hyphen (s : string) :
  avoids "-" (strip_non_alnum s) = true.
Proof.
  induction s as [|c r IH]; [done|]. simpl.
  destruct (alnum c) eqn:Hc; [|done]. simpl. rewrite IH, andb_true_r.
  apply negb_true_iff, Ascii.eqb_neq. by intros ->.
Qed.

(** X3. The identifier made for BIDS is always the prefix [sub-] followed
    by the letters and digits of the identifier given; the hyphen of a
    prefix that is already there is removed with the other punctuation,
    so that the prefix is added once more. *)
Theorem bidsify_id_prefix (id : option string) :
  bidsify_id id = "sub-" +:+ strip_non_alnum (default "sub-DEFAULT" id)
  ∧ ∀ label, id = Some ("sub-" +:+ label) →
      bidsify_id id = "sub-sub" +:+ strip_non_alnum label.
Proof.
  assert (∀ s, Py.startswith (strip_non_alnum s) "sub-" = false) as Hno.
  { intros s. destruct (Py.startswith _ _) eqn:Hp; [|done].
    apply startswith_app in Hp as [r Hr].
    pose proof (strip_non_alnum_no_hyphen s) as Hh. rewrite Hr in Hh.
    by rewrite !append_cons in Hh. }
  assert (bidsify_id id
          = "sub-" +:+ strip_non_alnum (default "sub-DEFAULT" id)) as Heq.
  { unfold bidsify_id. by rewrite Hno. }
  split; [exact Heq|]. intros label ->. rewrite Heq. simpl default.
  by rewrite !append_cons, !append_nil_l.
Qed.

End NameFacts.

(** ** Connections and the registry of a data store *)

Section DataStoreUse.

Import DataStore.

Context {S E : Type} `{!Backend S E}.
Context (instantiate : E → result S).

Lemma concat_replicate_snoc {A} (k : nat) (x : list A) :
  concat (replicate (Datatypes.S k) x) = concat (replicate k x) ++ x.
Proof.
  induction k as [|k IH]; [simpl; by rewrite app_nil_r|].
  change (concat (replicate (Datatypes.S (Datatypes.S k)) x))
    with (x ++ concat (replicate (Datatypes.S k) x)).
  rewrite IH at 1.
  change (concat (replicate (Datatypes.S k) x))
    with (x ++ concat (replicate k x)).
  by rewrite app_assoc.
Qed.

(** The log of a store that is [d] blocks deep: complete sessions, and
    one open session when [d] is positive. *)
Lemma run_sessions (evs : list block_event) (self : store S) (d0 d k0 : nat) :
  _connection_depth self = Z.of_nat d0 →
  calls self
  = concat (replicate k0 [Connect; Disconnect])
      ++ (if d0 is O then [] else [Connect]) →
  nesting evs d0 = Some d →
  _connection_depth (run evs self) = Z.of_nat d
  ∧ ∃ k, calls (run evs self)
         = concat (replicate k [Connect; Disconnect])
             ++ (if d is O then [] else [Connect]).
Proof.
  revert self d0 k0. induction evs as [|ev evs IH]; intros self d0 k0 Hd Hc Hn.
  { simpl in Hn. injection Hn as <-. eauto. }
  destruct ev; simpl in Hn.
  - apply (IH (__enter__ self) (Datatypes.S d0) k0); [| |done].
    + unfold __enter__. destruct (_connection_depth self =? 0)%Z; simpl; lia.
    + unfold __enter__. rewrite Hd. destruct d0 as [|d0]; simpl.
      * rewrite Hc. by rewrite app_nil_r.
      * replace (Z.pos (Pos.of_succ_nat d0) =? 0)%Z with false
          by (symmetry; apply Z.eqb_neq; lia).
        done.
  - destruct d0 as [|d0]; [done|].
    destruct d0 as [|d0].
    + apply (IH (__exit__ self) 0%nat (Datatypes.S k0)); [| |done].
      * unfold __exit__. simpl. rewrite Hd. done.
      * unfold __exit__. simpl. rewrite Hd. simpl.
        rewrite Hc, app_nil_r.
        change (Connect :: Disconnect
                  :: concat (replicate k0 [Connect; Disconnect]))
          with (concat (replicate (Datatypes.S k0) [Connect; Disconnect])).
        rewrite (concat_replicate_snoc k0 [Connect; Disconnect]).
        by rewrite <- app_assoc.
    + apply (IH (__exit__ self) (Datatypes.S d0) k0); [| |done].
      * unfold __exit__. simpl. rewrite Hd.
        replace (Z.of_nat (Datatypes.S (Datatypes.S d0)) - 1 =? 0)%Z with false
          by (symmetry; apply Z.eqb_neq; lia).
        simpl. lia.
      * unfold __exit__. simpl. rewrite Hd.
        replace (Z.of_nat (Datatypes.S (Datatypes.S d0)) - 1 =? 0)%Z with false
          by (symmetry; apply Z.eqb_neq; lia).
        done.
Qed.

(** X4. However scoped blocks on a new store are entered and left, as
    long as every exit has its entry, the depth counts the open blocks
    and the sessions never overlap: the log is a run of complete
    sessions, followed by one open session exactly when a block is
    open. *)
Theorem sessions_never_overlap (b : S) (evs : list block_event) (d : nat) :
  nesting evs 0 = Some d →
  let self := run evs (new_store b) in
  _connection_depth self = Z.of_nat d
  ∧ ∃ k, calls self
         = concat (replicate k [Connect; Disconnect])
             ++ (if d is O then [] else [Connect]).
Proof.
  intros Hn. by apply (run_sessions evs (new_store b) 0 d 0).
Qed.

Lemma release_below (self : store S) (m : nat) :
  (_connection_depth self ≤ 0)%Z →
  release m self
  = Store (backend self) (_connection_depth self - Z.of_nat m) (calls self).
Proof.
  intros Hd. induction m as [|m IH].
  - destruct self. simpl. f_equal. simpl in Hd. lia.
  - rewrite release_S, IH. unfold __exit__. simpl.
    replace (_connection_depth self - Z.of_nat m - 1 =? 0)%Z with false
      by (symmetry; apply Z.eqb_neq; lia).
    f_equal. lia.
Qed.

Lemma acquire_below (self : store S) (n : nat) :
  (_connection_depth self + Z.of_nat n ≤ 0)%Z →
  acquire n self
  = Store (backend self) (_connection_depth self + Z.of_nat n) (calls self).
Proof.
  induction n as [|n IH]; intros Hd.
  - destruct self. simpl. f_equal. lia.
  - rewrite acquire_S, IH by lia. unfold __enter__. simpl.
    replace (_connection_depth self + Z.of_nat n =? 0)%Z with false
      by (symmetry; apply Z.eqb_neq; lia).
    simpl. f_equal. lia.
Qed.

Lemma acquire_add (self : store S) (a b : nat) :
  acquire (a + b) self = acquire a (acquire b self).
Proof. unfold acquire. induction a as [|a IH]; simpl; [done|]. by rewrite IH. Qed.

(** X5. Exits that have no entry to match are carried as a negative
    depth.  After [m] of them on a new store, entries connect only once
    they outnumber the exits: the first [m] blocks run without a
    session. *)
Theorem unmatched_exits (b : S) (m n : nat) :
  acquire n (release m (new_store b))
  = if (m <? n)%nat
    then Store (connect b) (Z.of_nat n - Z.of_nat m) [Connect]
    else Store b (Z.of_nat n - Z.of_nat m) [].
Proof.
  rewrite release_below by done. simpl.
  destruct (m <? n)%nat eqn:Hmn.
  - apply Nat.ltb_lt in Hmn.
    replace n with ((n - m) + m)%nat at 1 by lia.
    rewrite acquire_add, (acquire_below _ m) by (simpl; lia). simpl.
    rewrite acquire_from_closed by (simpl; lia). simpl.
    f_equal. lia.
  - apply Nat.ltb_ge in Hmn.
    rewrite acquire_below by (simpl; lia). simpl. f_equal. lia.
Qed.

(** X6. Saving from within an open block uses the session of the block
    and leaves the store as it was; saving a store that is not connected
    opens one session and closes it, whether serialising succeeds or
    not. *)
Theorem save_session (name : string) (self : store S) (r : registry S E) :
  singletons r !! name = None →
  (_connection_depth self ≠ 0 → (save name self r).1.2 = self)
  ∧ (_connection_depth self = 0 →
     (save name self r).1.2
     = Store (disconnect (connect (backend self))) 0
             (calls self ++ [Connect; Disconnect])).
Proof.
  intros Hname. unfold save. rewrite Hname.
  rewrite bool_decide_eq_false_2 by (by intros [? ?]).
  assert (∀ x : result E,
            (match x with
             | Ok e =>
                 (Ok tt, __exit__ (__enter__ self),
                  save_entries (<[name := e]> (load_saved_entries r)) r)
             | Raise e => (Raise e, __exit__ (__enter__ self), r)
             end).1.2 = __exit__ (__enter__ self)) as -> by (by intros []).
  split; intros Hd.
  - unfold __enter__, __exit__.
    replace (_connection_depth self =? 0)%Z with false
      by (symmetry; by apply Z.eqb_neq).
    simpl.
    replace (_connection_depth self + 1 - 1 =? 0)%Z with false
      by (symmetry; apply Z.eqb_neq; lia).
    destruct self. simpl. f_equal. lia.
  - unfold __enter__, __exit__. rewrite Hd. simpl.
    by rewrite <- app_assoc.
Qed.

Lemma load_save_entries (entries : gmap string E) (r : registry S E) :
  load_saved_entries (save_entries entries r) = entries.
Proof. reflexivity. Qed.

(** X7. A store that was saved is the one [load] constructs under that
    name, and saving it changes what no other name loads. *)
Theorem save_then_load (name : string) (self self' : store S)
  (r r' : registry S E) :
  save name self r = (Ok tt, self', r') →
  ∃ e, serialise (backend (__enter__ self)) = Ok e
       ∧ load instantiate name r' = instantiate e
       ∧ ∀ other, other ≠ name →
           load instantiate other r' = load instantiate other r.
Proof.
  unfold save. destruct (bool_decide _); [done|].
  destruct (serialise (backend (__enter__ self))) as [e|]; [|done].
  intros [= _ <-]. exists e. split; [done|]. unfold load.
  rewrite load_save_entries. split.
  - by rewrite lookup_insert_eq.
  - intros other Hne. by rewrite lookup_insert_ne.
Qed.

(** X8. Removing a name that has no saved entry raises [KeyError] and
    leaves the registry alone; removing a store that was saved under a
    new name restores the saved entries, and the name then loads
    nothing. *)
Theorem save_then_remove (name : string) (self self' : store S)
  (r r' : registry S E) :
  load_saved_entries r !! name = None →
  remove name r = (Raise (KeyError name), r)
  ∧ (save name self r = (Ok tt, self', r') →
     ∃ r'', remove name r' = (Ok tt, r'')
            ∧ load_saved_entries r'' = load_saved_entries r
            ∧ singletons r'' = singletons r
            ∧ load instantiate name r'' = Raise (ArcanaNameError name)).
Proof.
  intros Hnew. split; [unfold remove; by rewrite Hnew|].
  unfold save. destruct (bool_decide _) eqn:Hb; [done|].
  apply bool_decide_eq_false in Hb.
  destruct (serialise (backend (__enter__ self))) as [e|]; [|done].
  intros [= _ <-]. unfold remove. rewrite load_save_entries, lookup_insert_eq.
  eexists. split; [done|]. rewrite load_save_entries, delete_insert_id by done.
  split_and!; [done..|]. unfold load. rewrite load_save_entries, Hnew. simpl.
  destruct (singletons r !! name) eqn:Hs; [|done].
  by destruct Hb.
Qed.

(** X9. Saving and removing never put a saved entry under the alias of a
    built-in store, so an alias always loads its built-in store. *)
Theorem builtin_not_shadowed (r : registry S E) :
  no_shadowing r →
  (∀ name self, no_shadowing (save name self r).2)
  ∧ (∀ name, no_shadowing (remove name r).2)
  ∧ ∀ alias store,
      singletons r !! alias = Some store →
      load instantiate alias r = Ok store.
Proof.
  intros Hr. split_and!.
  - intros name self. unfold save.
    destruct (bool_decide _) eqn:Hb; [done|].
    apply bool_decide_eq_false in Hb.
    destruct (serialise _); [|done].
    intros alias Ha. simpl in *. rewrite load_save_entries.
    rewrite lookup_insert_ne; [by apply Hr|]. by intros ->.
  - intros name. unfold remove.
    destruct (load_saved_entries r !! name); [|done].
    intros alias Ha. simpl in *. rewrite load_save_entries.
    destruct (decide (name = alias)) as [->|Hne].
    + by rewrite lookup_delete_eq.
    + rewrite lookup_delete_ne by done. by apply Hr.
  - intros alias store Hs. unfold load.
    rewrite (Hr alias) by (by rewrite Hs). by rewrite Hs.
Qed.

End DataStoreUse.

(** ** Fields and paths of the plain file-system repository *)

Section FileSystemDirUse.

Import FileSystemDir.

Context {Id : Type} (str : Id → string).

(** The outcome of a conversion, as it leaves the handler of
    [get_field]. *)
Lemma get_field_result (field : @Field Id) (w : world) :
  (get_field str field w).1
  = match path_outcome str (f_item field) None (Some FIELDS_FNAME) with
    | Raise e => Raise e
    | Ok fpath =>
        match files w !! fpath with
        | Some (FJson doc) =>
            match doc !! f_name field with
            | Some val =>
                match converted field val with
                | Ok v => Ok v
                | Raise e => Raise (missing_data_handler e)
                end
            | None => Raise ArcanaMissingDataException
            end
        | Some FData => Raise ValueError
        | Some (FErr errno) => Raise (missing_data_handler (IOError errno))
        | None => Raise ArcanaMissingDataException
        end
    end.
Proof.
  pose proof (file_group_path_outcome str (f_item field) None
                (Some FIELDS_FNAME) w) as Hout.
  destruct (file_group_path str (f_item field) None (Some FIELDS_FNAME) w)
    as [[fpath|e] w0] eqn:Hp; simpl in Hout; rewrite <- Hout.
  2: { unfold get_field, fields_json_path, mbind, ST_mbind, st_bind.
       by rewrite Hp. }
  destruct (file_group_path_frame _ _ _ _ _ _ _ Hp) as [Hfiles _].
  unfold get_field, fields_json_path, mbind, ST_mbind, st_bind. rewrite Hp.
  unfold try_missing_data, with_lock, emit, read_json.
  cbn [files dirs trace]. rewrite Hfiles.
  destruct (files w !! fpath) as [[doc| |errno]|]; [|done|done|done].
  cbn [files dirs trace fst snd]. unfold st_lift.
  destruct (doc !! f_name field) as [val|]; [|done].
  unfold converted, mbind, result_mbind. destruct (f_array field); cbn [fst].
  - by destruct (result_bind _ _).
  - by destruct (f_dtype field val).
Qed.

(** What a completed [put_field] found and what it left. *)
Lemma put_field_inv (field : @Field Id) (w w1 : world) :
  put_field str field w = (Ok tt, w1) →
  ∃ fpath old stored,
    path_outcome str (f_item field) None (Some FIELDS_FNAME) = Ok fpath
    ∧ (if f_array field then py_list (f_value field)
       else Ok (f_value field)) = Ok stored
    ∧ files w1 = <[fpath := FJson (<[f_name field := stored]> old)]> (files w)
    ∧ (files w !! fpath = Some (FJson old)
       ∨ old = ∅ ∧ (files w !! fpath = None
                    ∨ files w !! fpath = Some (FErr ENOENT))).
Proof.
  pose proof (file_group_path_outcome str (f_item field) None
                (Some FIELDS_FNAME) w) as Hout.
  destruct (file_group_path str (f_item field) None (Some FIELDS_FNAME) w)
    as [[fpath|e] w0] eqn:Hp; simpl in Hout; rewrite <- Hout.
  2: { unfold put_field, fields_json_path, mbind, ST_mbind, st_bind.
       by rewrite Hp. }
  destruct (file_group_path_frame _ _ _ _ _ _ _ Hp) as [Hfiles _].
  unfold put_field, fields_json_path, mbind, ST_mbind, st_bind. rewrite Hp.
  unfold with_lock, emit, read_json, write_json.
  cbn [files dirs trace]. rewrite Hfiles. unfold st_lift.
  destruct (files w !! fpath) as [[doc| |errno]|] eqn:Hf;
    cbn [files dirs trace fst snd]; [|done| |].
  - destruct (if f_array field then _ else _) as [stored|]; [|done].
    cbn [files dirs trace]. rewrite Hf. intros [= <-].
    exists fpath, doc, stored. cbn [files]. eauto.
  - destruct (errno =? ENOENT)%Z eqn:He; [|done].
    apply Z.eqb_eq in He as ->.
    destruct (if f_array field then _ else _) as [stored|]; [|done].
    cbn [files dirs trace]. rewrite Hf. cbn [Z.eqb ENOENT Pos.eqb].
    intros [= <-]. exists fpath, ∅, stored. cbn [files]. eauto 10.
  - cbn [Z.eqb ENOENT Pos.eqb].
    destruct (if f_array field then _ else _) as [stored|]; [|done].
    cbn [files dirs trace]. rewrite Hf. intros [= <-].
    exists fpath, ∅, stored. cbn [files]. eauto 10.
Qed.

Lemma py_iter_list (val stored : value) :
  py_list val = Ok stored → ∃ l, stored = VList l ∧ py_iter val = Ok l.
Proof.
  unfold py_list, mbind, result_mbind.
  destruct (py_iter val) as [l|]; [|done]. intros [= <-]. eauto.
Qed.

(** X10. A field that was put is the field that is got: [get_field]
    returns what the conversion of the field makes of its value, whatever
    the document held before. *)
Theorem put_then_get_field (field : @Field Id) (w w1 : world) :
  put_field str field w = (Ok tt, w1) →
  (get_field str field w1).1
  = match converted field (f_value field) with
    | Ok v => Ok v
    | Raise e => Raise (missing_data_handler e)
    end.
Proof.
  intros (fpath & old & stored & Hpath & Hstored & Hfiles & _)%put_field_inv.
  rewrite get_field_result, Hpath, Hfiles, lookup_insert_eq, lookup_insert_eq.
  unfold converted in *. destruct (f_array field).
  - apply py_iter_list in Hstored as (l & -> & ->). done.
  - by injection Hstored as <-.
Qed.

(** X11. Putting a field changes what [get_field] returns for no field
    of another name, in whatever node. *)
Theorem put_field_keeps_others (field other : @Field Id) (w w1 : world) :
  put_field str field w = (Ok tt, w1) →
  f_name other ≠ f_name field →
  (get_field str other w1).1 = (get_field str other w).1.
Proof.
  intros (fpath & old & stored & Hpath & _ & Hfiles & Hold)%put_field_inv Hne.
  rewrite !get_field_result.
  destruct (path_outcome str (f_item other) None (Some FIELDS_FNAME))
    as [p|]; [|done].
  rewrite Hfiles. destruct (decide (p = fpath)) as [->|Hp].
  - rewrite lookup_insert_eq, lookup_insert_ne by done.
    destruct Hold as [-> | [-> [-> | ->]]]; [done| |].
    + by rewrite lookup_empty.
    + by rewrite lookup_empty.
  - by rewrite lookup_insert_ne.
Qed.

(** X12. Only a missing file and a missing key are reported as missing
    data.  A file that cannot be opened for another reason raises the
    error of the operating system, and a file that is not JSON raises
    [ValueError]. *)
Theorem get_field_unreadable (field : @Field Id) (w : world) fpath :
  path_outcome str (f_item field) None (Some FIELDS_FNAME) = Ok fpath →
  (∀ errno, files w !! fpath = Some (FErr errno) →
     (get_field str field w).1
     = Raise (if (errno =? ENOENT)%Z then ArcanaMissingDataException
              else IOError errno))
  ∧ (files w !! fpath = Some FData →
     (get_field str field w).1 = Raise ValueError)
  ∧ ((get_field str field w).1 = Raise ArcanaMissingDataException →
     files w !! fpath = None
     ∨ files w !! fpath = Some (FErr ENOENT)
     ∨ ∃ doc, files w !! fpath = Some (FJson doc)
              ∧ (doc !! f_name field = None
                 ∨ ∃ val e, doc !! f_name field = Some val
                            ∧ converted field val = Raise e
                            ∧ missing_data_handler e
                              = ArcanaMissingDataException)).
Proof.
  intros Hpath. rewrite get_field_result, Hpath. split_and!.
  - intros errno ->. simpl. by destruct (errno =? ENOENT)%Z.
  - by intros ->.
  - destruct (files w !! fpath) as [[doc| |errno]|]; [| done | |by left].
    + intros Hr. right; right. exists doc. split; [done|].
      destruct (doc !! f_name field) as [val|]; [|by left].
      right. exists val.
      destruct (converted field val) as [v|e]; [done|].
      exists e. split_and!; [done..|]. by injection Hr.
    + simpl. destruct (errno =? ENOENT)%Z eqn:He; [|done].
      apply Z.eqb_eq in He as ->. by right; left.
Qed.


(** X14. Resolving the path of a derived item makes its session
    directory when it is missing, and nothing else: no file changes, no
    directory is lost, and resolving the path again changes nothing.  For
    an item that is not derived the world is left as it is. *)
Theorem session_dir_made (item : @Item Id) ds fn (w w1 : world) p :
  file_group_path str item ds fn w = (Ok p, w1) →
  ∃ sess_dir,
    p = Py.join sess_dir [default (fname item) fn]
    ∧ files w1 = files w
    ∧ dirs w ⊆ dirs w1
    ∧ (derived item = true → op_exists sess_dir w1 = true)
    ∧ (derived item = false → w1 = w)
    ∧ file_group_path str item ds fn w1 = (Ok p, w1).
Proof.
  unfold file_group_path, mbind, ST_mbind, st_bind, st_lift, st_ret.
  destruct (level_dirs _ _ _ _ _) as [d|]; [|done].
  destruct (acq_dir _ _ _ _) as [acq|]; [|done].
  set (sess_dir := sess_dir_of item acq).
  destruct (derived item) eqn:Hd; cbn [andb negb].
  - destruct (op_exists sess_dir w) eqn:Hex; cbn [negb].
    + intros [= <- <-]. exists sess_dir. rewrite Hex. cbn [negb].
      split_and!; done.
    + unfold os_makedirs. intros [= <- <-]. exists sess_dir.
      assert (op_exists sess_dir
                {| dirs := dirs w ∪ list_to_set (ancestors_from "" sess_dir)
                           ∪ {[sess_dir]};
                   files := files w;
                   trace := trace w ++ [Makedirs sess_dir] |} = true) as Hnow.
      { unfold op_exists. cbn [dirs files].
        rewrite bool_decide_eq_true_2; [done|]. set_solver. }
      rewrite Hnow. cbn [negb dirs files].
      split_and!; [done|done|set_solver|done|done|done].
  - intros [= <- <-]. exists sess_dir. split_and!; done.
Qed.

Lemma open_ended_app (x a : string) :
  Py.open_ended a = true → Py.open_ended (x +:+ a) = true.
Proof.
  unfold Py.open_ended. intros [Ht He]%andb_true_iff.
  pose proof (truthy_str_ne _ Ht) as Hne.
  rewrite endswith_sep_app, He by done. rewrite andb_true_r.
  unfold Py.truthy_str. apply negb_true_iff, eqb_false_of_ne.
  by intros [_ ?]%append_eq_empty.
Qed.

Lemma join2_lead (root : string) :
  ∃ pre, ∀ a, Py.relative a = true → Py.join2 root a = pre +:+ a.
Proof.
  destruct (String.eqb root "" || Py.endswith root "/") eqn:Hr.
  - exists root. intros a Ha. unfold Py.join2.
    apply negb_true_iff in Ha. by rewrite Ha, Hr.
  - exists (root +:+ "/"). intros a Ha. unfold Py.join2.
    apply negb_true_iff in Ha. by rewrite Ha, Hr, append_assoc.
Qed.

Lemma append_inv_head (p x y : string) : p +:+ x = p +:+ y → x = y.
Proof.
  induction p as [|c p IH]; [by rewrite ?append_nil_l|].
  rewrite !append_cons. intros [= H]. by apply IH.
Qed.

Lemma append_sep_inj (a a' x y : string) :
  Bids.avoids "/" a = true → Bids.avoids "/" a' = true →
  a +:+ "/" +:+ x = a' +:+ "/" +:+ y → a = a' ∧ x = y.
Proof.
  revert a'. induction a as [|c a IH]; intros [|c' a'] Ha Ha';
    repeat (rewrite append_nil_l || rewrite append_cons).
  - by intros [= ->].
  - intros [= <- _]. by simpl in Ha'.
  - intros [= -> _]. by simpl in Ha.
  - simpl in Ha, Ha'. apply andb_true_iff in Ha as [_ Ha].
    apply andb_true_iff in Ha' as [_ Ha'].
    intros [= -> H]. by destruct (IH a' Ha Ha' H) as [-> ->].
Qed.

Lemma avoids_sep_plain (s : string) :
  s ≠ "" → Bids.avoids "/" s = true → Py.plain_name s = true.
Proof.
  intros Hne Hs. unfold Py.plain_name, Py.relative, Py.open_ended.
  assert (Py.endswith s "/" = false) as ->.
  { clear Hne. induction s as [|c r IH]; [done|].
    simpl in Hs. apply andb_true_iff in Hs as [Hc Hs]. simpl.
    rewrite (IH Hs), orb_false_r.
    apply negb_true_iff in Hc. by rewrite Hc. }
  unfold Py.truthy_str. rewrite (eqb_false_of_ne _ _ Hne).
  destruct s as [|c r]; [done|]. simpl in Hs.
  apply andb_true_iff in Hs as [Hc _]. unfold Py.startswith.
  rewrite prefix_cons. apply negb_true_iff in Hc.
  rewrite Ascii.eqb_sym, Hc. done.
Qed.

(** X15. In a repository of depth 2 the items of different sessions never
    share a path, and neither do two files of one session: when subject
    and timepoint directories are non-empty names without a separator,
    the path of a session-level item determines the subject, the
    timepoint and the file name. *)
Theorem session_paths_distinct (item item' : @Item Id) (w w' : world) :
  let d := dataset item in
  let subject i := str (inv_map_subject_id d (subject_id i)) in
  let timepoint i := str (inv_map_timepoint_id d (timepoint_id i)) in
  dataset item' = d →
  ds_depth d = 2%Z →
  Py.startswith (tree_level item) "per_session" = true →
  Py.startswith (tree_level item') "per_session" = true →
  namespace item = None → namespace item' = None →
  Forall (fun s => s ≠ "" ∧ Bids.avoids "/" s = true)
    [subject item; timepoint item; subject item'; timepoint item'] →
  Py.relative (fname item) = true → Py.relative (fname item') = true →
  (file_group_path str item None None w).1
  = (file_group_path str item' None None w').1 →
  subject item = subject item' ∧ timepoint item = timepoint item'
  ∧ fname item = fname item'.
Proof.
  intros d subject timepoint Hds Hdepth Hl Hl' Hn Hn' Hnames Hf Hf'.
  apply Forall_cons in Hnames as [[Hs1 Hs2] Hnames].
  apply Forall_cons in Hnames as [[Ht1 Ht2] Hnames].
  apply Forall_cons in Hnames as [[Hs1' Hs2'] Hnames].
  apply Forall_cons in Hnames as [[Ht1' Ht2'] _].
  assert (∀ i : @Item Id,
            dataset i = d → Py.startswith (tree_level i) "per_session" = true →
            namespace i = None → Py.relative (fname i) = true →
            subject i ≠ "" → Bids.avoids "/" (subject i) = true →
            timepoint i ≠ "" → Bids.avoids "/" (timepoint i) = true →
            ∀ u, ∃ pre,
              (file_group_path str i None None u).1
              = Ok (pre +:+ subject i +:+ "/" +:+ timepoint i +:+ "/"
                      +:+ fname i)
              ∧ ∀ a, Py.relative a = true → Py.join2 (ds_name d) a = pre +:+ a)
    as Hshape.
  { intros i Hi Hli Hni Hfi Hsa Hsb Hta Htb u.
    destruct (join2_lead (ds_name d)) as [pre Hpre]. exists pre.
    split; [|done].
    destruct (per_session_not_others _ Hli) as (Hnd & Hns & Hnt).
    rewrite (file_group_path_depth_2_dirs str i u (subject i) (timepoint i)).
    - unfold below. rewrite Hni, Hi. unfold Py.join. cbn [fold_left app].
      pose proof (avoids_sep_plain _ Hsa Hsb) as Hps.
      pose proof (avoids_sep_plain _ Hta Htb) as Hpt.
      rewrite Hpre by (by apply plain_relative).
      rewrite (join2_plain (pre +:+ subject i) (timepoint i));
        [|by apply open_ended_app, plain_open_ended|by apply plain_relative].
      rewrite join2_plain; [|rewrite <- !append_assoc;
                              by apply open_ended_app, plain_open_ended|done].
      by rewrite !append_assoc.
    - by rewrite Hi.
    - rewrite Hi. unfold level_dirs. by rewrite Hnd, Hns, Hnt, Hli. }
  destruct (Hshape item eq_refl Hl Hn Hf Hs1 Hs2 Ht1 Ht2 w) as (pre & -> & Hpre).
  destruct (Hshape item' Hds Hl' Hn' Hf' Hs1' Hs2' Ht1' Ht2' w')
    as (pre' & -> & Hpre').
  assert (pre' = pre) as ->.
  { pose proof (Hpre "" eq_refl) as H1. pose proof (Hpre' "" eq_refl) as H2.
    rewrite H1 in H2. rewrite !append_empty_r in H2. done. }
  intros [= H%append_inv_head].
  apply append_sep_inj in H as [-> H]; [|done..].
  apply append_sep_inj in H as [-> ->]; done.
Qed.

(** X16. The files a walk reports never include a hidden file, the
    fields document, or a file named after it such as its lock; every
    other file is reported, in order, below the directory walked. *)
Theorem filter_files_drops (base_dir : string) (files : list string) :
  (∀ suffix,
     _filter_files (("." +:+ suffix) :: files) base_dir
     = _filter_files files base_dir)
  ∧ (∀ suffix,
       _filter_files ((FIELDS_FNAME +:+ suffix) :: files) base_dir
       = _filter_files files base_dir)
  ∧ (∀ f,
       Py.startswith f "." = false → Py.startswith f FIELDS_FNAME = false →
       _filter_files (f :: files) base_dir
       = Py.join base_dir [f] :: _filter_files files base_dir).
Proof.
  unfold _filter_files. split_and!.
  - intros suffix. rewrite filter_cons, decide_False; [done|].
    unfold Py.startswith. by rewrite prefix_refl_app.
  - intros suffix. rewrite filter_cons, decide_False; [done|].
    unfold Py.startswith. rewrite (prefix_refl_app FIELDS_FNAME).
    by rewrite orb_true_r.
  - intros f H1 H2. rewrite filter_cons, decide_True; [done|].
    by rewrite H1, H2.
Qed.

(** X17. The walk recovers the identifiers a path was made from.  The
    directories [acq_dir] joins to the root are read back as the subject
    and the timepoint, as far as the depth of the repository holds them;
    one more directory is the namespace of derived items, and it is
    recognised only once it holds a provenance directory. *)
Theorem ids_recovered (DEFAULT_SUBJECT_ID DEFAULT_VISIT_ID : string)
  (root : string) (depth : Z) (subj_dir timepoint_dir acq ns : string)
  (dirs files : list string) :
  acq_dir root depth subj_dir timepoint_dir = Ok acq →
  let extract := _extract_ids_from_path DEFAULT_SUBJECT_ID DEFAULT_VISIT_ID in
  let ids :=
    if (depth =? 2)%Z then (subj_dir, timepoint_dir)
    else if (depth =? 1)%Z then (subj_dir, DEFAULT_VISIT_ID)
    else (DEFAULT_SUBJECT_ID, DEFAULT_VISIT_ID) in
  ∃ parts,
    acq = Py.join root parts
    ∧ extract depth parts dirs files = inr (Some (ids, None))
    ∧ extract depth (parts ++ [ns]) dirs files
      = inr (if bool_decide (PROV_DIR ∈ dirs) then Some (ids, Some ns)
             else None).
Proof.
  unfold acq_dir, _extract_ids_from_path.
  destruct (depth =? 2)%Z eqn:H2.
  { apply Z.eqb_eq in H2 as ->. intros [= <-].
    exists [subj_dir; timepoint_dir]. split_and!; [done..|].
    cbn. by destruct (bool_decide _). }
  destruct (depth =? 1)%Z eqn:H1.
  { apply Z.eqb_eq in H1 as ->. intros [= <-].
    exists [subj_dir]. split_and!; [done..|].
    cbn. by destruct (bool_decide _). }
  destruct (depth =? 0)%Z eqn:H0; [|done].
  apply Z.eqb_eq in H0 as ->. intros [= <-].
  exists []. split_and!; [done..|].
  cbn. by destruct (bool_decide _).
Qed.


(** X19. What the walk makes of a directory, in a repository of depth 0
    or more.  It is a data directory exactly when it lies at the depth of
    the repository, or one level below and holds a provenance directory.
    It is an error exactly when it lies above that depth and holds a
    file that is not hidden.  Every other directory is passed over. *)
Theorem extract_ids_outcome (DEFAULT_SUBJECT_ID DEFAULT_VISIT_ID : string)
  (depth : Z) (path_parts dirs files : list string) :
  (0 ≤ depth)%Z →
  let r :=
    _extract_ids_from_path DEFAULT_SUBJECT_ID DEFAULT_VISIT_ID depth
      path_parts dirs files in
  let path_depth := Z.of_nat (length path_parts) in
  ((∃ ids, r = inr (Some ids))
   ↔ path_depth = depth ∨ (path_depth = depth + 1)%Z ∧ PROV_DIR ∈ dirs)
  ∧ ((∃ e, r = inl e)
     ↔ (path_depth < depth)%Z
       ∧ ∃ f, f ∈ files ∧ Py.startswith f "." = false).
Proof.
  intros Hdepth. cbn zeta. unfold _extract_ids_from_path.
  assert (existsb (fun f => negb (Py.startswith f ".")) files = true
          ↔ ∃ f, f ∈ files ∧ Py.startswith f "." = false) as Hvisible.
  { rewrite existsb_exists. split; intros (f & Hin & Hf); exists f.
    - split; [by apply list_elem_of_In|by apply negb_true_iff].
    - split; [by apply list_elem_of_In|by apply negb_true_iff]. }
  destruct (Z.of_nat (length path_parts) =? depth)%Z eqn:H1.
  { apply Z.eqb_eq in H1. split.
    - split; [by left|]. intros _. eauto.
    - split; [by intros [? ?]|]. intros [? _]. lia. }
  apply Z.eqb_neq in H1.
  destruct (Z.of_nat (length path_parts) =? depth + 1)%Z eqn:H2.
  - apply Z.eqb_eq in H2.
    destruct (bool_decide (PROV_DIR ∈ dirs)) eqn:Hprov; cbn [andb].
    + apply bool_decide_eq_true in Hprov.
      destruct path_parts as [|p ps]; [simpl in H2; lia|].
      unfold pop. split.
      * split; [by right|]. intros _. eauto.
      * split; [by intros [? ?]|]. intros [? _]. lia.
    + apply bool_decide_eq_false in Hprov.
      replace (Z.of_nat (length path_parts) <? depth)%Z with false
        by (symmetry; apply Z.ltb_ge; lia).
      cbn [andb]. split.
      * split; [by intros [? ?]|]. intros [?|[_ ?]]; done.
      * split; [by intros [? ?]|]. intros [? _]. lia.
  - apply Z.eqb_neq in H2. cbn [andb].
    destruct (Z.of_nat (length path_parts) <? depth)%Z eqn:H3; cbn [andb].
    + apply Z.ltb_lt in H3.
      destruct (existsb _ files) eqn:Hex.
      * split.
        -- split; [by intros [? ?]|]. intros [?|[? _]]; lia.
        -- split; [|eauto]. intros _. split; [done|]. by apply Hvisible.
      * split.
        -- split; [by intros [? ?]|]. intros [?|[? _]]; lia.
        -- split; [by intros [? ?]|]. intros [_ Hf].
           apply Hvisible in Hf. congruence.
    + apply Z.ltb_ge in H3. split.
      * split; [by intros [? ?]|]. intros [?|[? _]]; lia.
      * split; [by intros [? ?]|]. intros [? _]. lia.
Qed.

End FileSystemDirUse.

(** ** Paths and URIs of the container-service store *)

Section XnatViaCSUse.

Import XnatViaCS.

Context {Freq : Type} `{!EqDecision Freq}.
Context {W : Type} `{!OS W}.
Context (_make_uri : @DataNode Freq → string).
Context (copy_ext : @FileGroup Freq → Path → Path → Path).

Lemma strip_prefix_app (p s : string) : strip_prefix p (p +:+ s) = Some s.
Proof.
  induction p as [|c p IH]; [by rewrite append_nil_l; destruct s|].
  rewrite append_cons. simpl. by rewrite Ascii.eqb_refl.
Qed.

Lemma span_id_identifier (p x : string) :
  forallb id_char (list_ascii_of_string p) = true →
  span_id (p +:+ String "/" x) = (p, String "/" x).
Proof.
  induction p as [|c p IH]; intros Hp.
  - by rewrite append_nil_l.
  - simpl in Hp. apply andb_true_iff in Hp as [Hc Hp].
    rewrite append_cons. simpl. by rewrite Hc, (IH Hp).
Qed.

Lemma ident_slash_identifier (p x : string) :
  identifier p = true → ident_slash (p +:+ "/" +:+ x) = Some x.
Proof.
  unfold identifier, ident_slash. intros [Hne Hp]%andb_true_iff.
  rewrite append_cons, append_nil_l, span_id_identifier by done.
  apply negb_true_iff in Hne. rewrite Hne. simpl. by destruct x.
Qed.

Lemma optional_level_present (kw p x : string) :
  identifier p = true →
  optional_level kw (kw +:+ p +:+ "/" +:+ x) = x.
Proof.
  intros Hp. unfold optional_level. rewrite strip_prefix_app. simpl.
  by rewrite ident_slash_identifier.
Qed.

Lemma dot_star_end_line (s : string) :
  Bids.avoids newline s = true →
  dot_star_end s = Some s ∧ dot_star_end (s +:+ String newline "") = Some s.
Proof.
  induction s as [|c r IH]; [done|]. simpl.
  intros [Hc Hr]%andb_true_iff. apply negb_true_iff in Hc.
  destruct (IH Hr) as [H1 H2]. by rewrite Hc, H1, H2.
Qed.

(** X20. The path of a resource is read off a URI of the archive: after
    the project, an optional subject and the session, each an identifier,
    the rest of the URI is the path, whether or not the URI goes through
    [archive]; a line feed that ends the URI is left out. *)
Theorem match_uri_path (archive : bool) (project session rest : string)
  (subject : option string) :
  identifier project = true →
  identifier session = true →
  (∀ s, subject = Some s → identifier s = true) →
  Bids.avoids newline rest = true →
  let uri :=
    "/data/" +:+ (if archive then "archive/" else "")
      +:+ "projects/" +:+ project +:+ "/"
      +:+ match subject with
          | Some s => "subjects/" +:+ s +:+ "/"
          | None => ""
          end
      +:+ "experiments/" +:+ session +:+ "/" +:+ rest in
  match_uri uri = Some rest
  ∧ match_uri (uri +:+ String newline "") = Some rest.
Proof.
  intros Hp He Hs Hrest.
  assert (∀ tail,
            Bids.avoids newline rest = true →
            (tail = rest ∨ tail = rest +:+ String newline "") →
            match_uri
              ("/data/" +:+ (if archive then "archive/" else "")
                 +:+ "projects/" +:+ project +:+ "/"
                 +:+ match subject with
                     | Some s => "subjects/" +:+ s +:+ "/"
                     | None => ""
                     end
                 +:+ "experiments/" +:+ session +:+ "/" +:+ tail)
            = Some rest) as Hgen.
  { intros tail Hr Htail. unfold match_uri.
    rewrite strip_prefix_app. cbn [mbind option_bind].
    assert (default
              ((if archive then "archive/" else "") +:+ "projects/"
                 +:+ project +:+ "/"
                 +:+ match subject with
                     | Some s => "subjects/" +:+ s +:+ "/"
                     | None => ""
                     end +:+ "experiments/" +:+ session +:+ "/" +:+ tail)
              (strip_prefix "archive/"
                 ((if archive then "archive/" else "") +:+ "projects/"
                    +:+ project +:+ "/"
                    +:+ match subject with
                        | Some s => "subjects/" +:+ s +:+ "/"
                        | None => ""
                        end +:+ "experiments/" +:+ session +:+ "/" +:+ tail))
            = "projects/" +:+ project +:+ "/"
                +:+ match subject with
                    | Some s => "subjects/" +:+ s +:+ "/"
                    | None => ""
                    end +:+ "experiments/" +:+ session +:+ "/" +:+ tail)
      as ->.
    { destruct archive.
      - by rewrite strip_prefix_app.
      - rewrite append_nil_l. by rewrite !append_cons. }
    rewrite strip_prefix_app. cbn [mbind option_bind].
    rewrite ident_slash_identifier by done. cbn [mbind option_bind].
    assert (optional_level "subjects/"
              (match subject with
               | Some s => "subjects/" +:+ s +:+ "/"
               | None => ""
               end +:+ "experiments/" +:+ session +:+ "/" +:+ tail)
            = "experiments/" +:+ session +:+ "/" +:+ tail) as ->.
    { destruct subject as [s|].
      - rewrite !append_assoc. apply optional_level_present. by apply Hs.
      - rewrite append_nil_l. unfold optional_level.
        by rewrite !append_cons. }
    rewrite optional_level_present by done.
    destruct (dot_star_end_line rest Hr) as [H1 H2].
    by destruct Htail as [-> | ->]. }
  split.
  - apply Hgen; auto.
  - cbn zeta. rewrite !append_assoc. apply Hgen; auto.
Qed.

Lemma split_pieces (c : ascii) (s : string) :
  Forall (fun piece => Bids.avoids c piece = true) (Py.split c s).
Proof.
  induction s as [|a r IH]; [by repeat constructor|]. simpl.
  destruct (Ascii.eqb a c) eqn:Ha.
  - apply Forall_cons. by split.
  - pose proof (split_nonempty c r).
    destruct (Py.split c r) as [|h t]; [done|].
    apply Forall_cons in IH as [Hh Ht]. apply Forall_cons. split; [|done].
    simpl. by rewrite Ha, Hh.
Qed.

Lemma parse_piece (piece : string) :
  Bids.avoids "/" piece = true →
  parse piece = MkPath false (if keep_part piece then [piece] else []).
Proof.
  intros Hp. unfold parse. rewrite (split_avoids _ _ Hp).
  rewrite filter_cons, filter_nil. f_equal.
  - destruct piece as [|a r]; [done|]. simpl in Hp.
    apply andb_true_iff in Hp as [Ha _]. apply negb_true_iff in Ha.
    unfold Py.startswith. by rewrite prefix_cons, Ascii.eqb_sym, Ha.
  - destruct (keep_part piece); [by rewrite decide_True|by rewrite decide_False].
Qed.

Lemma joinpath_pieces (p : Path) (pieces : list string) :
  Forall (fun piece => Bids.avoids "/" piece = true) pieces →
  joinpath p pieces
  = MkPath (absolute p)
      (parts p ++ filter (fun piece => keep_part piece = true) pieces).
Proof.
  revert p. induction pieces as [|x l IH]; intros p Hl.
  - rewrite filter_nil, app_nil_r. by destruct p.
  - apply Forall_cons in Hl as [Hx Hl]. unfold joinpath in *. simpl.
    rewrite (IH _ Hl), (parse_piece _ Hx). unfold div. simpl.
    rewrite filter_cons. rewrite <- app_assoc.
    destruct (keep_part x); [by rewrite decide_True|by rewrite decide_False].
Qed.

(** X21. The stem path of a file-group lies below the output mount: its
    components are those of the mount, followed by the components of the
    path of the file-group that are neither empty nor a dot.  A path that
    begins with a slash is placed below the mount all the same. *)
Theorem stem_path_below_mount (self : @XnatViaCS Freq)
  (file_group : @FileGroup Freq) :
  file_group_stem_path self file_group
  = MkPath (absolute (output_mount self))
      (parts (output_mount self)
         ++ filter (fun piece => keep_part piece = true)
              (Py.split "/" (path file_group))).
Proof. apply joinpath_pieces, split_pieces. Qed.

(** X22. The members of a resource directory are linked into the scratch
    directory exactly as if its catalogue files were not there. *)
Theorem link_items_skips_catalog (dir_path : Path) (items : list Path)
  (w : W) :
  link_items dir_path items w
  = link_items dir_path
      (filter (fun item => Py.endswith (name item) "_catalog.xml" = false)
         items) w.
Proof.
  assert (∀ item rest w,
            link_items dir_path (item :: rest) w
            = st_bind
                (if negb (Py.endswith (name item) "_catalog.xml")
                 then symlink item (joinpath dir_path [name item])
                 else mret tt)
                (fun _ => link_items dir_path rest) w) as Hcons by done.
  revert w. induction items as [|item rest IH]; intros w; [done|].
  rewrite filter_cons, Hcons.
  destruct (Py.endswith (name item) "_catalog.xml") eqn:Hc.
  - rewrite decide_False by done. apply IH.
  - rewrite decide_True, Hcons, Hc by done. cbn [negb]. unfold st_bind.
    destruct (symlink item _ w) as [[[]|e] w1]; [apply IH|done].
Qed.

Lemma copy_all_targets (file_group : @FileGroup Freq) (stem_path : Path)
  (fs_paths targets : list Path) (w w' : W) :
  copy_all copy_ext file_group stem_path fs_paths w = (Ok targets, w') →
  targets
  = (fun fs_path =>
       if is_dir file_group then stem_path
       else copy_ext file_group fs_path stem_path) <$> fs_paths.
Proof.
  revert targets w w'. induction fs_paths as [|x l IH]; intros targets w w'.
  - by intros [= <- _].
  - simpl. unfold mbind, ST_mbind, st_bind, mret, ST_ret, st_ret.
    destruct (is_dir file_group).
    + destruct (copytree x stem_path w) as [[[]|e] w1]; [|done].
      destruct (copy_all _ _ _ l w1) as [[ts|e] w2] eqn:Hl; [|done].
      intros [= <- _]. by rewrite (IH _ _ _ Hl).
    + destruct (copyfile x _ w) as [[[]|e] w1]; [|done].
      destruct (copy_all _ _ _ l w1) as [[ts|e] w2] eqn:Hl; [|done].
      intros [= <- _]. by rewrite (IH _ _ _ Hl).
Qed.

(** X23. A completed [put_file_group_paths] returns one target for each
    path handed in, in order: the stem path itself for a directory, and
    for a file the stem path with the extension of the file. *)
Theorem put_file_group_paths_targets (self : @XnatViaCS Freq)
  (file_group file_group' : @FileGroup Freq) (fs_paths targets : list Path)
  (w w' : W) :
  put_file_group_paths _make_uri copy_ext self file_group fs_paths w
  = (Ok (targets, file_group'), w') →
  let stem_path := file_group_stem_path self file_group in
  targets
  = (fun fs_path =>
       if is_dir file_group then stem_path
       else copy_ext file_group fs_path stem_path) <$> fs_paths.
Proof.
  unfold put_file_group_paths, mbind, ST_mbind, st_bind, mret, ST_ret, st_ret.
  destruct (makedirs_exist_ok _ w) as [[[]|e] w1]; [|done].
  destruct (copy_all _ _ _ fs_paths w1) as [[ts|e] w2] eqn:Hl; [|done].
  intros [= <- _ _]. by apply copy_all_targets in Hl.
Qed.

End XnatViaCSUse.

(** ** BIDS metadata on disk *)

Section BidsUse.

Import Bids.

Ltac lookup_dict :=
  repeat first
    [ rewrite lookup_set_if_truthy_ne by done
    | rewrite lookup_insert_ne by done
    | rewrite lookup_set_if_truthy_eq
    | rewrite lookup_insert_eq
    | rewrite lookup_empty ].

(** An attribute that is written only when it is truthy is read back
    unchanged exactly when it is [None] or truthy. *)
Lemma optional_iff (j : json) :
  default JNull (if truthy j then Some j else None) = j ↔ optional j.
Proof.
  split; [|apply optional_get].
  unfold optional. destruct (truthy j); simpl; [by right|by left].
Qed.

Lemma container_read_back (c : ContainerMetadata) :
  container_from_dict (JDict (container_to_dict c))
  = Ok (Some {| c_type := default JNull (if truthy (c_type c)
                                        then Some (c_type c) else None);
                c_tag := default JNull (if truthy (c_tag c)
                                       then Some (c_tag c) else None);
                c_uri := default JNull (if truthy (c_uri c)
                                       then Some (c_uri c) else None) |}).
Proof.
  unfold container_from_dict, container_to_dict, get. cbn [mbind result_mbind result_bind].
  by lookup_dict.
Qed.

Lemma container_round_trip_iff (c : ContainerMetadata) :
  container_from_dict (JDict (container_to_dict c)) = Ok (Some c)
  ↔ container_ok c.
Proof.
  split; [|apply container_round_trip].
  rewrite container_read_back. destruct c as [t g u]. simpl.
  intros [= Ht Hg Hu]. unfold container_ok. simpl.
  by rewrite <- !optional_iff.
Qed.

(** X24. What [to_dict] writes is read back by [from_dict] as the same
    record exactly when every optional attribute is [None] or truthy: an
    empty string, a zero or an empty list is left out of the dictionary
    and comes back as [None]. *)
Theorem to_dict_from_dict_iff :
  (∀ g, generator_from_dict (JDict (generator_to_dict g)) = Ok g
        ↔ generator_ok g)
  ∧ (∀ s, source_from_dict (JDict (source_to_dict s)) = Ok (Some s)
          ↔ source_ok (Some s)).
Proof.
  split.
  - intros g. split; [|apply generator_round_trip].
    destruct g as [n v d u c]. unfold generator_ok. simpl.
    unfold generator_from_dict, generator_to_dict, item, get. simpl.
    destruct c as [c|]; lookup_dict;
      cbn [mbind result_mbind result_bind default].
    + unfold id. rewrite container_read_back.
      cbn [mbind result_mbind result_bind].
      intros [= Hv Hd Hu Hc].
      rewrite <- !optional_iff.
      split_and!; [done..|].
      apply container_round_trip_iff. rewrite container_read_back.
      by rewrite Hc.
    + cbn [container_from_dict mbind result_mbind result_bind].
      intros [= Hv Hd Hu]. by rewrite <- !optional_iff.
  - intros s. split; [|apply source_round_trip].
    destruct s as [u d v]. unfold source_ok. simpl.
    unfold source_from_dict, source_to_dict, get.
    cbn [mbind result_mbind result_bind]. lookup_dict.
    intros [= Hu Hd Hv]. by rewrite <- !optional_iff.
Qed.

Lemma source_entries_outcome (ss : list (option SourceDatasetMetadata)) :
  match map_result source_entry ss with
  | Ok _ => Forall (fun s => s ≠ None) ss
  | Raise e => e = AttributeError ∧ None ∈ ss
  end.
Proof.
  induction ss as [|[s|] ss IH]; simpl.
  - constructor.
  - unfold mbind, result_mbind. cbn [result_bind].
    destruct (map_result source_entry ss); cbn [result_bind].
    + apply Forall_cons. by split.
    + destruct IH as [-> Hin]. split; [done|]. apply elem_of_cons. by right.
  - split; [done|]. apply elem_of_cons. by left.
Qed.

Lemma row_values_outcome (attrs : odict string) (cols : list string) :
  match row_values attrs cols with
  | Ok _ => Forall (fun c => is_Some (od_get c attrs)) cols
  | Raise e => ∃ c, e = KeyError c ∧ c ∈ cols ∧ od_get c attrs = None
  end.
Proof.
  induction cols as [|c cols IH]; simpl; [constructor|].
  destruct (od_get c attrs) as [v|] eqn:Hc.
  - unfold mbind, result_mbind.
    destruct (row_values attrs cols); cbn [result_bind].
    + apply Forall_cons. split; [by rewrite Hc|done].
    + destruct IH as (c' & -> & Hin & Hnone). exists c'.
      split_and!; [done| |done]. apply elem_of_cons. by right.
  - exists c. split_and!; [done| |done]. apply elem_of_cons. by left.
Qed.

Lemma write_rows_outcome (cols : list string) (rows : odict (odict string))
  (text : string) :
  match (write_rows cols rows text).1 with
  | Ok _ =>
      Forall (fun row => Forall (fun c => is_Some (od_get c row.2)) cols) rows
  | Raise e =>
      ∃ c row, e = KeyError c ∧ c ∈ cols ∧ row ∈ rows ∧ od_get c row.2 = None
  end.
Proof.
  revert text. induction rows as [|[pid attrs] rows IH]; intros text; simpl.
  { constructor. }
  unfold mbind, ST_mbind, st_bind, st_lift.
  pose proof (row_values_outcome attrs cols) as Hrow.
  destruct (row_values attrs cols) as [vs|e].
  - specialize (IH (text +:+ tsv_line (pid :: vs))).
    destruct (write_rows cols rows _) as [[[]|e] text']; simpl in *.
    + apply Forall_cons. by split.
    + destruct IH as (c & row & -> & Hc & Hin & Hnone). exists c, row.
      split_and!; [done..| |done]. apply elem_of_cons. by right.
  - simpl. destruct Hrow as (c & -> & Hc & Hnone). exists c, (pid, attrs).
    split_and!; [done..| |done]. apply elem_of_cons. by left.
Qed.

(** X25. [save_metadata] completes exactly when there is a participant,
    no source of the dataset is [None], and every participant has a value
    for each column, the columns being the attributes of the first
    participant. *)
Theorem save_metadata_succeeds (d : BidsDataset) (root : root_dir) :
  (save_metadata d root).1 = Ok tt
  ↔ participants d ≠ []
    ∧ Forall (fun s => s ≠ None) (sources d)
    ∧ Forall (fun row =>
                Forall (fun c => is_Some (od_get c row.2))
                  (columns (participants d)))
        (participants d).
Proof.
  unfold save_metadata.
  pose proof (source_entries_outcome (sources d)) as Hsrc.
  pose proof (write_rows_outcome (columns (participants d)) (participants d)
                ("" +:+ tsv_line ("participant_id" :: columns (participants d))))
    as Hrows.
  destruct (participants d) as [|row rows] eqn:Hps.
  { simpl. split; [done|]. by intros [? _]. }
  rewrite <- Hps in *. cbn [Py.truthy_list negb].
  assert (Py.truthy_list (participants d) = true) as -> by (by rewrite Hps).
  cbn [negb].
  destruct (map_result source_entry (sources d)) as [dicts|e].
  2: { simpl. split; [done|]. intros (_ & Hall & _). destruct Hsrc as [_ Hin].
       by apply (proj1 (Forall_forall _ _) Hall) in Hin. }
  unfold write_participants, mbind, ST_mbind, st_bind in *.
  destruct (write_rows _ _ _) as [[[]|e] text]; simpl in Hrows.
  - destruct (readme d); simpl; (split; [|done]); intros _;
      (split_and!; [by rewrite Hps|done|done]).
  - simpl. split; [done|]. intros (_ & _ & Hall).
    destruct Hrows as (c & r & _ & Hc & Hin & Hnone).
    apply (proj1 (Forall_forall _ _) Hall) in Hin.
    apply (proj1 (Forall_forall _ _) Hin) in Hc. rewrite Hnone in Hc.
    by destruct Hc.
Qed.

(** X26. [save_metadata] fails in three ways only.  Without participants,
    or with a source that is [None], it raises before anything is
    written.  With a participant that lacks a column it raises
    [KeyError] for that column after the description was replaced and the
    table was begun.  The README is never touched by a failing call. *)
Theorem save_metadata_failure (d : BidsDataset) (root : root_dir) (e : exn) :
  (save_metadata d root).1 = Raise e →
  let root' := (save_metadata d root).2 in
  README root' = README root
  ∧ match e with
    | ArcanaEmptyDatasetError => participants d = [] ∧ root' = root
    | AttributeError => None ∈ sources d ∧ root' = root
    | KeyError c =>
        c ∈ columns (participants d)
        ∧ (∃ row, row ∈ participants d ∧ od_get c row.2 = None)
        ∧ is_Some (dataset_description_json root')
        ∧ is_Some (participants_tsv root')
    | _ => False
    end.
Proof.
  unfold save_metadata.
  pose proof (source_entries_outcome (sources d)) as Hsrc.
  pose proof (write_rows_outcome (columns (participants d)) (participants d)
                ("" +:+ tsv_line ("participant_id" :: columns (participants d))))
    as Hrows.
  destruct (participants d) as [|row rows] eqn:Hps.
  { simpl. by intros [= <-]. }
  rewrite <- Hps in *.
  assert (Py.truthy_list (participants d) = true) as -> by (by rewrite Hps).
  cbn [negb].
  destruct (map_result source_entry (sources d)) as [dicts|e'].
  2: { simpl. intros [= <-]. by destruct Hsrc as [-> Hin]. }
  unfold write_participants, mbind, ST_mbind, st_bind in *.
  destruct (write_rows _ _ _) as [[[]|e'] text]; simpl in Hrows.
  - by destruct (readme d).
  - simpl. intros [= <-].
    destruct Hrows as (c & r & -> & Hc & Hin & Hnone).
    split; [done|]. split_and!; eauto.
Qed.

Lemma result_bind_ok {A B} (r : result A) (k : A → result B) (b : B) :
  result_bind r k = Ok b → ∃ a, r = Ok a ∧ k a = Ok b.
Proof. destruct r as [a|]; [eauto|done]. Qed.

(** X27. What a completed [load_metadata] found on disk: a description
    that is a dictionary with a name and a version, the [GeneratedBy]
    entry when the type is derivative, and the participants table.
    Generators of a dataset that is not derivative and sources that are
    not listed are not read: the attributes keep the values they had. *)
Theorem load_metadata_requires (self d : BidsDataset) (root : root_dir) :
  load_metadata self root = Ok d →
  ∃ m text,
    dataset_description_json root = Some (JDict m)
    ∧ m !! "Name" = Some (name d)
    ∧ m !! "BIDSVersion" = Some (bids_version d)
    ∧ bids_type d = default JNull (m !! "DatasetType")
    ∧ (is_str (bids_type d) "derivative" = true → is_Some (m !! "GeneratedBy"))
    ∧ (is_str (bids_type d) "derivative" = false →
       generated_by d = generated_by self)
    ∧ (m !! "sourceDatasets" = None → sources d = sources self)
    ∧ participants_tsv root = Some text
    ∧ read_participants text = Ok (participants d)
    ∧ readme d = universal_newlines <$> README root.
Proof.
  unfold load_metadata.
  destruct (dataset_description_json root) as [dct|]; [|done].
  destruct dct as [| | | | |m]; try done.
  unfold item, get, get_default, has_key.
  cbn [mbind result_mbind result_bind].
  destruct (m !! "Name") as [n|] eqn:Hn; [|done].
  destruct (m !! "BIDSVersion") as [v|] eqn:Hv; [|done].
  cbn [mbind result_mbind result_bind].
  set (type := default JNull (m !! "DatasetType")).
  unfold mbind, result_mbind.
  intros (gens & Hgens & H)%result_bind_ok.
  apply result_bind_ok in H as (srcs & Hsrcs & H).
  apply result_bind_ok in H as (ps & Hps & H).
  destruct (participants_tsv root) as [text|]; [|done].
  injection H as <-. exists m, text. simpl.
  split_and!; try done.
  - intros Htype. rewrite Htype in Hgens.
    destruct (m !! "GeneratedBy"); [eauto|]. by vm_compute in Hgens.
  - intros Htype. rewrite Htype in Hgens. by injection Hgens.
  - intros Hnone. rewrite Hnone in Hsrcs. by injection Hsrcs.
Qed.

Lemma universal_newlines_app (a b : string) :
  avoids CR a = true →
  universal_newlines (a +:+ b) = a +:+ universal_newlines b.
Proof.
  induction a as [|c a IH]; [by rewrite !append_nil_l|].
  simpl. intros [Hc Ha]%andb_true_iff. apply negb_true_iff in Hc.
  rewrite !append_cons. simpl. by rewrite Hc, (IH Ha).
Qed.

Lemma readlines_nonempty (c : ascii) (s : string) :
  readlines (String c s) ≠ [].
Proof.
  simpl. destruct (Ascii.eqb c LF); [done|]. by destruct (readlines s).
Qed.

Lemma readlines_app (a b : string) :
  readlines (a +:+ String LF b) = readlines (a +:+ String LF "") ++ readlines b.
Proof.
  induction a as [|c a IH]; [by rewrite !append_nil_l|].
  rewrite !append_cons. simpl. destruct (Ascii.eqb c LF).
  - by rewrite IH.
  - rewrite IH.
    assert (readlines (a +:+ String LF "") ≠ []) as Hne.
    { destruct a; [done|]. rewrite append_cons. apply readlines_nonempty. }
    by destruct (readlines (a +:+ String LF "")).
Qed.

Lemma read_rows_blank (cols : list string) (before after : list string)
  (acc : odict (odict string)) :
  read_rows cols (before ++ String LF "" :: after) acc
  = read_rows cols before acc.
Proof.
  revert acc. induction before as [|l before IH]; intros acc; [done|].
  simpl. destruct (String.eqb (drop_last l) ""); [done|].
  unfold mbind, result_mbind.
  destruct (od_pop "participant_id" _) as [[pid attrs]|]; [|done].
  cbn [result_bind]. apply IH.
Qed.

(** X28. A blank line ends the participants table: whatever follows it in
    the file is not read. *)
Theorem blank_line_ends_table (table rest : string) :
  avoids CR table = true →
  read_participants (table +:+ String LF (String LF rest))
  = read_participants (table +:+ String LF "").
Proof.
  intros Hcr. unfold read_participants.
  rewrite !universal_newlines_app by done.
  set (rest' := universal_newlines (String LF (String LF rest))).
  assert (rest' = String LF (String LF (universal_newlines rest))) as ->
    by done.
  change (universal_newlines (String LF "")) with (String LF "").
  rewrite readlines_app.
  assert (readlines (table +:+ String LF "") ≠ []) as Hne.
  { destruct table; [done|]. rewrite append_cons. apply readlines_nonempty. }
  destruct (readlines (table +:+ String LF "")) as [|header rows]; [done|].
  change (readlines (String LF (universal_newlines rest)))
    with (String LF "" :: readlines (universal_newlines rest)).
  cbn [app hd tl]. apply read_rows_blank.
Qed.

End BidsUse.

(** ** Worked cases of the further properties *)

(** The path of a T1-weighted image is recovered from its escaped
    name. *)
Lemma unescape_escape_name_witness :
  Bids.unescape_name (Bids.escape_name "anat/T1w") = "anat/T1w".
Proof. exact (unescape_escape_name "anat/T1w" eq_refl). Defined.

(** An escaped name is recovered from the path it stands for. *)
Lemma escape_unescape_name_witness :
  Bids.escape_name (Bids.unescape_name "anat__l__T1w") = "anat__l__T1w".
Proof. exact (proj2 escape_unescape_name "anat__l__T1w" eq_refl). Defined.

(** An identifier that has its prefix is given the prefix again. *)
Lemma bidsify_id_prefix_witness :
  Bids.bidsify_id (Some "sub-01") = "sub-sub01".
Proof. exact (proj2 (bidsify_id_prefix (Some "sub-01")) "01" eq_refl). Defined.

(** Two nested blocks, then a third block that is still open: one
    complete session and one open session. *)
Lemma sessions_never_overlap_witness :
  let self :=
    DataStore.run
      [DataStore.Entry; DataStore.Entry; DataStore.Exit; DataStore.Exit;
       DataStore.Entry] (DataStore.new_store 0%nat) in
  DataStore._connection_depth self = 1
  ∧ ∃ k, DataStore.calls self
         = concat (replicate k [DataStore.Connect; DataStore.Disconnect])
             ++ [DataStore.Connect].
Proof.
  exact (sessions_never_overlap 0%nat
           [DataStore.Entry; DataStore.Entry; DataStore.Exit; DataStore.Exit;
            DataStore.Entry] 1 eq_refl).
Defined.

(** Saving a store that is not connected opens and closes one session. *)
Lemma save_session_witness :
  (DataStore.save "my-xnat" (DataStore.new_store 0%nat)
     Examples.builtin_stores).1.2
  = DataStore.Store 1%nat 0 [DataStore.Connect; DataStore.Disconnect].
Proof.
  exact (proj2 (save_session "my-xnat" (DataStore.new_store 0%nat)
                  Examples.builtin_stores eq_refl) eq_refl).
Defined.

(** The store saved as my-xnat is the store loaded under that name. *)
Lemma save_then_load_witness :
  ∃ e, DataStore.load Examples.counting_class "my-xnat"
         (DataStore.save "my-xnat" (DataStore.new_store 0%nat)
            Examples.builtin_stores).2
       = Examples.counting_class e.
Proof.
  destruct (save_then_load Examples.counting_class "my-xnat"
              (DataStore.new_store 0%nat)
              (DataStore.save "my-xnat" (DataStore.new_store 0%nat)
                 Examples.builtin_stores).1.2
              Examples.builtin_stores
              (DataStore.save "my-xnat" (DataStore.new_store 0%nat)
                 Examples.builtin_stores).2)
    as (e & _ & Hload & _); [reflexivity|].
  by exists e.
Defined.

(** Once the store saved as my-xnat is removed, the name loads nothing. *)
Lemma save_then_remove_witness :
  ∃ r'',
    DataStore.remove "my-xnat"
      (DataStore.save "my-xnat" (DataStore.new_store 0%nat)
         Examples.builtin_stores).2 = (Ok tt, r'')
    ∧ DataStore.load Examples.counting_class "my-xnat" r''
      = Raise (ArcanaNameError "my-xnat").
Proof.
  destruct (save_then_remove Examples.counting_class "my-xnat"
              (DataStore.new_store 0%nat)
              (DataStore.save "my-xnat" (DataStore.new_store 0%nat)
                 Examples.builtin_stores).1.2
              Examples.builtin_stores
              (DataStore.save "my-xnat" (DataStore.new_store 0%nat)
                 Examples.builtin_stores).2)
    as [_ Hsaved]; [reflexivity|].
  destruct Hsaved as (r'' & Hremove & _ & _ & Hload); [reflexivity|].
  by exists r''.
Defined.

(** The alias of the built-in file store loads that store. *)
Lemma builtin_not_shadowed_witness :
  DataStore.load Examples.counting_class "file" Examples.builtin_stores
  = Ok 0%nat.
Proof.
  apply (builtin_not_shadowed Examples.counting_class Examples.builtin_stores).
  - intros alias _. apply lookup_empty.
  - reflexivity.
Defined.

(** The age that was put is the age that is got. *)
Lemma put_then_get_field_witness :
  (FileSystemDir.get_field id Examples.age
     (FileSystemDir.put_field id Examples.age Examples.empty_world).2).1
  = Ok (FileSystemDir.VInt 42).
Proof.
  exact (put_then_get_field id Examples.age Examples.empty_world
           (FileSystemDir.put_field id Examples.age Examples.empty_world).2
           eq_refl).
Defined.

(** Putting the weight leaves the age as it was. *)
Lemma put_field_keeps_others_witness :
  let w := (FileSystemDir.put_field id Examples.age Examples.empty_world).2 in
  (FileSystemDir.get_field id Examples.age
     (FileSystemDir.put_field id Examples.weight w).2).1
  = (FileSystemDir.get_field id Examples.age w).1.
Proof.
  apply (put_field_keeps_others id Examples.weight Examples.age).
  - reflexivity.
  - discriminate.
Defined.

(** A fields document that may not be read raises the error of the
    operating system. *)
Lemma get_field_unreadable_witness :
  (FileSystemDir.get_field id Examples.age Examples.protected_world).1
  = Raise (IOError 13).
Proof.
  exact (proj1 (get_field_unreadable id Examples.age Examples.protected_world
                  "/data/study/sub-01/tp-1/fields.json" eq_refl)
           13 eq_refl).
Defined.


(** The session directory of a derived scan is there once its path was
    resolved. *)
Lemma session_dir_made_witness :
  ∃ sess_dir,
    FileSystemDir.op_exists sess_dir
      (FileSystemDir.file_group_path id Examples.preproc_scan None None
         Examples.empty_world).2 = true.
Proof.
  destruct (session_dir_made id Examples.preproc_scan None None
              Examples.empty_world
              (FileSystemDir.file_group_path id Examples.preproc_scan None None
                 Examples.empty_world).2
              "/data/study/sub-01/tp-1/preproc/T1w.nii" eq_refl)
    as (sess_dir & _ & _ & _ & Hmade & _).
  exists sess_dir. by apply Hmade.
Defined.

(** Two session-level scans that share a path are scans of one subject
    and one timepoint, under one file name. *)
Lemma session_paths_distinct_witness :
  let item := Examples.scan "per_session" 2 None in
  let item' := Examples.scan "per_session_scan" 2 None in
  FileSystemDir.subject_id item = FileSystemDir.subject_id item'
  ∧ FileSystemDir.timepoint_id item = FileSystemDir.timepoint_id item'
  ∧ FileSystemDir.fname item = FileSystemDir.fname item'.
Proof.
  apply (session_paths_distinct id (Examples.scan "per_session" 2 None)
           (Examples.scan "per_session_scan" 2 None)
           Examples.empty_world Examples.empty_world);
    try reflexivity.
  repeat (apply Forall_cons; split; [by split|]). constructor.
Defined.

(** The lock of the fields document is not reported as a file of the
    session. *)
Lemma filter_files_drops_witness :
  FileSystemDir._filter_files ["fields.json.lock"; "T1w.nii"]
    "/data/study/sub-01/tp-1"
  = ["/data/study/sub-01/tp-1/T1w.nii"].
Proof.
  etransitivity;
    [exact (proj1 (proj2 (filter_files_drops "/data/study/sub-01/tp-1"
                            ["T1w.nii"])) ".lock")|].
  exact (proj2 (proj2 (filter_files_drops "/data/study/sub-01/tp-1" []))
           "T1w.nii" eq_refl eq_refl).
Defined.

(** The directory of a session is read back as its subject and
    timepoint. *)
Lemma ids_recovered_witness :
  ∃ parts,
    "/data/study/sub-01/tp-1" = Py.join "/data/study" parts
    ∧ FileSystemDir._extract_ids_from_path "SUBJECT" "VISIT" 2 parts [] []
      = inr (Some ("sub-01", "tp-1", None)).
Proof.
  destruct (ids_recovered "SUBJECT" "VISIT" "/data/study" 2 "sub-01" "tp-1"
              "/data/study/sub-01/tp-1" "preproc" [] [] eq_refl)
    as (parts & Hjoin & Hids & _).
  by exists parts.
Defined.

(** The URI of a scan gives the path of its resource. *)
Lemma match_uri_path_witness :
  XnatViaCS.match_uri Examples.scan_uri = Some "scans/1/resources/NIFTI".
Proof.
  exact (proj1 (match_uri_path true "P1" "E1" "scans/1/resources/NIFTI"
                  (Some "S1") eq_refl eq_refl
                  (fun s H => match H in _ = o
                                    return match o with
                                           | Some s' =>
                                               XnatViaCS.identifier s' = true
                                           | None => True
                                           end with
                              | eq_refl => eq_refl
                              end)
                  eq_refl)).
Defined.

(** One file handed in, one target returned. *)
Lemma put_file_group_paths_targets_witness :
  ∃ targets file_group',
    XnatViaCS.put_file_group_paths Examples.make_uri Examples.keep_stem
      Examples.session_store Examples.remote_scan
      [XnatViaCS.parse "/work/t1w.nii"] Examples.archive
    = (Ok (targets, file_group'), Examples.archive)
    ∧ targets = [XnatViaCS.parse "/output/t1w"].
Proof.
  eexists _, _. split; [reflexivity|].
  exact (put_file_group_paths_targets Examples.make_uri Examples.keep_stem
           Examples.session_store Examples.remote_scan _
           [XnatViaCS.parse "/work/t1w.nii"] _ Examples.archive
           Examples.archive eq_refl).
Defined.

(** The generator of the sample dataset is read back as it was written. *)
Lemma to_dict_from_dict_iff_witness :
  Bids.generator_from_dict
    (Bids.JDict (Bids.generator_to_dict Examples.arcana_generator))
  = Ok Examples.arcana_generator.
Proof.
  apply (proj1 to_dict_from_dict_iff Examples.arcana_generator).
  unfold Bids.generator_ok. simpl. repeat split; by right.
Defined.

(** The sample dataset can be saved. *)
Lemma save_metadata_succeeds_witness :
  (Bids.save_metadata (Examples.described "derivative")
     Examples.empty_root).1 = Ok tt.
Proof.
  apply (save_metadata_succeeds (Examples.described "derivative")
           Examples.empty_root).
  split_and!; [done|constructor|].
  repeat (apply Forall_cons; split;
          [apply Forall_cons; split; [by eexists|constructor]|]).
  constructor.
Defined.

(** A dataset without participants is not saved, and nothing is
    written. *)
Lemma save_metadata_failure_witness :
  (Bids.save_metadata Bids.new_dataset Examples.empty_root).2
  = Examples.empty_root.
Proof.
  exact (proj2 (proj2 (save_metadata_failure Bids.new_dataset
                         Examples.empty_root ArcanaEmptyDatasetError
                         eq_refl))).
Defined.

(** The sample dataset, once saved, is loaded from a description and a
    participants table. *)
Lemma load_metadata_requires_witness :
  ∃ m text,
    Bids.dataset_description_json
      (Bids.save_metadata (Examples.described "derivative")
         Examples.empty_root).2 = Some (Bids.JDict m)
    ∧ m !! "Name" = Some (Bids.JStr "bids-dataset")
    ∧ Bids.participants_tsv
        (Bids.save_metadata (Examples.described "derivative")
           Examples.empty_root).2 = Some text.
Proof.
  destruct (load_metadata_requires Bids.new_dataset
              (Examples.described "derivative")
              (Bids.save_metadata (Examples.described "derivative")
                 Examples.empty_root).2)
    as (m & text & Hd & Hn & _ & _ & _ & _ & _ & Hp & _).
  { by vm_compute. }
  by exists m, text.
Defined.

(** What follows a blank line in the participants table is not read. *)
Lemma blank_line_ends_table_witness :
  Bids.read_participants
    (Examples.one_participant
       +:+ String Bids.LF (String Bids.LF "sub-2"))
  = Bids.read_participants (Examples.one_participant +:+ String Bids.LF "").
Proof.
  exact (blank_line_ends_table Examples.one_participant "sub-2" eq_refl).
Defined.


(** The directory of a subject is passed over in a repository of depth
    2, unless it holds a file. *)
Lemma extract_ids_outcome_witness :
  ∃ e,
    FileSystemDir._extract_ids_from_path "SUBJECT" "VISIT" 2 ["sub-01"] []
      ["notes.txt"] = inl e.
Proof.
  apply (proj2 (proj2 (extract_ids_outcome "SUBJECT" "VISIT" 2 ["sub-01"] []
                         ["notes.txt"] ltac:(done)))).
  split; [done|]. exists "notes.txt". split; [|done].
  apply elem_of_cons. by left.
Defined.
